(** * Diabetes Risk Assessment Tool: the assessment computation of [app.py]

    A shallow embedding of the code that runs when the form is submitted
    (lines 47-142 of [app.py]): the call of the model, the thresholds that
    turn the probability into a risk level, the recommendation blocks, and
    the "key factors" loop over the three most important features.

    Modelling choices.
    - A Python/numpy float is a [spec_float] (the IEEE 754 data of the
      Standard Library); the comparison [<] of the source is [SFltb].
      The literals [0.2] and [0.5] are the binary64 numbers the Python
      parser produces for them.
    - Streamlit calls and the call of the model are events, collected in
      order.  [st.progress] checks its value and may raise; it is an
      interface ([Streamlit]) whose contract is that a score in [0,1] is
      accepted.  The other Streamlit calls are given strings and are taken
      to return normally.
    - An exception stops the [try] body; what was written before it stays
      on the page, and the [except] clause then writes its message.
    - [pandas.DataFrame.sort_values] is library code: it is an interface
      ([SortValues]) with the contract of a descending sort, and an
      implementation of it is given for the examples. *)

From Stdlib Require Import ZArith List String Ascii Bool Lia.
From Stdlib Require Import Permutation Sorted.
From Stdlib Require Import Floats.PrimFloat Floats.SpecFloat Floats.FloatOps.
Import ListNotations.

Open Scope list_scope.
Open Scope string_scope.

(** ** Floats *)

Module F.

(** The binary64 value of a Python float literal. *)
Definition lit (x : PrimFloat.float) : spec_float := Prim2SF x.

Definition zero : spec_float := S754_zero false.
Definition one : spec_float := S754_finite false 4503599627370496 (-52).

(** The literals of the source. *)
Definition c0_2 : spec_float := S754_finite false 7205759403792794 (-55).
Definition c0_5 : spec_float := S754_finite false 4503599627370496 (-53).

Definition is_nan (x : spec_float) : bool :=
  match x with S754_nan => true | _ => false end.

(** [0 <= p <= 1], the range of a probability. *)
Definition in_unit (p : spec_float) : bool := SFleb zero p && SFleb p one.

End F.

(** ** Risk level (lines 69-77) *)

Definition risk_level_of (risk_score : spec_float) : string * string :=
  if SFltb risk_score F.c0_2 then ("Low Risk", "green")
  else if SFltb risk_score F.c0_5 then ("Moderate Risk", "orange")
  else ("High Risk", "red").

Definition risk_level (risk_score : spec_float) : string :=
  fst (risk_level_of risk_score).

Definition color (risk_score : spec_float) : string :=
  snd (risk_level_of risk_score).

(** The bands of the specification and the label the code gives each. *)
Inductive band : Type := Low | Moderate | High.

Definition band_label (b : band) : string :=
  match b with
  | Low => "Low Risk"
  | Moderate => "Moderate Risk"
  | High => "High Risk"
  end.

Definition band_of_label (s : string) : option band :=
  if String.eqb s "Low Risk" then Some Low
  else if String.eqb s "Moderate Risk" then Some Moderate
  else if String.eqb s "High Risk" then Some High
  else None.

Definition band_rank (b : band) : nat :=
  match b with Low => 0 | Moderate => 1 | High => 2 end.

Definition band_le (b1 b2 : band) : Prop := band_rank b1 <= band_rank b2.

(** ** Strings *)

(** Python's [needle in hay] on strings: [needle] occurs in [hay] as a
    contiguous, case-sensitive substring. *)
Fixpoint str_in (needle hay : string) : bool :=
  if String.prefix needle hay then true
  else match hay with
       | EmptyString => false
       | String _ rest => str_in needle rest
       end.

(** [str.lower] on ASCII letters. *)
Definition lower_ascii (c : ascii) : ascii :=
  let n := nat_of_ascii c in
  if (65 <=? n)%nat && (n <=? 90)%nat then ascii_of_nat (n + 32) else c.

Fixpoint lower (s : string) : string :=
  match s with
  | EmptyString => EmptyString
  | String c rest => String (lower_ascii c) (lower rest)
  end.

Definition newline : string := String (ascii_of_nat 10) EmptyString.

(** The red circle that starts each key-factor line (U+1F534, in UTF-8). *)
Definition red_circle : string :=
  String (ascii_of_nat 240) (String (ascii_of_nat 159)
    (String (ascii_of_nat 148) (String (ascii_of_nat 180) EmptyString))).

(** ** The form (lines 27-44) *)

Inductive gender_option : Type := Female | Male | Other.
Inductive yes_no : Type := No | Yes.
Inductive smoking_option : Type := Never | Former | Current | Unknown.

Definition gender_label (g : gender_option) : string :=
  match g with Female => "Female" | Male => "Male" | Other => "Other" end.

Definition yes_no_label (v : yes_no) : string :=
  match v with No => "No" | Yes => "Yes" end.

Definition smoking_label (v : smoking_option) : string :=
  match v with
  | Never => "Never" | Former => "Former"
  | Current => "Current" | Unknown => "Unknown"
  end.

(** The values the widgets hand back once the form is submitted. *)
Record form : Type := {
  gender : gender_option;
  age : Z;
  hypertension : yes_no;
  heart_disease : yes_no;
  smoking_history : smoking_option;
  bmi : spec_float;
  hba1c_level : spec_float;
  blood_glucose_level : Z
}.

(** The one-row frame given to the model (lines 49-58). *)
Record input_row : Type := {
  col_gender : string;
  col_age : Z;
  col_hypertension : Z;
  col_heart_disease : Z;
  col_smoking_history : string;
  col_bmi : spec_float;
  col_HbA1c_level : spec_float;
  col_blood_glucose_level : Z
}.

Definition input_data (f : form) : input_row := {|
  col_gender := gender_label (gender f);
  col_age := age f;
  col_hypertension :=
    if String.eqb (yes_no_label (hypertension f)) "Yes" then 1%Z else 0%Z;
  col_heart_disease :=
    if String.eqb (yes_no_label (heart_disease f)) "Yes" then 1%Z else 0%Z;
  col_smoking_history := lower (smoking_label (smoking_history f));
  col_bmi := bmi f;
  col_HbA1c_level := hba1c_level f;
  col_blood_glucose_level := blood_glucose_level f
|}.

(** ** Exceptions and output *)

Inductive exn : Type :=
| ModelFailure (msg : string)          (* raised inside [predict_proba] *)
| IndexError (i size : nat)            (* [a[i]] with [i] out of bounds *)
| ValueError_lengths (n m : nat)       (* a frame from columns of unequal length *)
| StreamlitAPIException (value : spec_float).
                                       (* [st.progress] given a value it refuses *)

(** The pieces of an f-string: literal text and formatted values. *)
Inductive frag : Type :=
| Lit (s : string)
| FInt (z : Z)                 (* [{z}] for an int *)
| FFloat (x : spec_float)      (* [{x}] for a float *)
| FPercent1 (x : spec_float)   (* [{x:.1%}] *)
| FStr (e : exn).              (* [{str(e)}] *)

Definition fstring : Type := list frag.

(** What the assessment does to the outside: the Streamlit calls, in the
    order they are made, and the call of the model. *)
Inductive event : Type :=
| model_predict_proba (X : input_row)
| st_subheader (text : string)
| st_metric (label : string) (value : fstring) (delta : string)
            (delta_color : string)
| st_progress (value : spec_float)
| st_write (text : fstring)
| st_success (text : string)
| st_warning (text : string)
| st_error (text : fstring).

(** A computation leaves a trace of events and either returns or raises. *)
Definition M (A : Type) : Type := (list event * (exn + A))%type.

Definition ret {A : Type} (x : A) : M A := ([], inr x).

Definition bind {A B : Type} (m : M A) (k : A -> M B) : M B :=
  match m with
  | (out, inl e) => (out, inl e)
  | (out, inr x) => let (out', r) := k x in ((out ++ out')%list, r)
  end.

Definition emit (ev : event) : M unit := ([ev], inr tt).

Definition lift {A : Type} (r : exn + A) : M A := ([], r).

(** [try: body except Exception as e: handler e]. *)
Definition try_except (body : M unit) (handler : exn -> M unit) : M unit :=
  match body with
  | (out, inl e) => let (out', r) := handler e in ((out ++ out')%list, r)
  | (out, inr x) => (out, inr x)
  end.

Notation "x <- m ;; k" := (bind m (fun x => k))
  (at level 61, m at next level, right associativity).
Notation "m ;;; k" := (bind m (fun _ => k))
  (at level 61, right associativity).

Fixpoint for_each {A : Type} (l : list A) (body : A -> M unit) : M unit :=
  match l with
  | [] => ret tt
  | x :: rest => body x ;;; for_each rest body
  end.

Definition output {A : Type} (m : M A) : list event := fst m.
Definition outcome {A : Type} (m : M A) : exn + A := snd m.

(** [a[i]] on a sequence. *)
Definition getitem {A : Type} (a : list A) (i : nat) : exn + A :=
  match nth_error a i with
  | Some x => inr x
  | None => inl (IndexError i (List.length a))
  end.

(** ** The model artifact and pandas *)

(** The loaded pipeline: [predict_proba] may raise; the pipeline has a step
    named [classifier], which may or may not have the attribute
    [feature_importances_]. *)
Record Model : Type := {
  predict_proba : input_row -> exn + list (list spec_float);
  feature_importances_ : option (list spec_float)
}.

(** A row of the frame [feature_importance]; [index] is the label pandas
    gives it, its position in [feature_names]. *)
Record row : Type := {
  index : nat;
  feature : string;
  importance : spec_float
}.

Fixpoint rows_from (i : nat) (names : list string) (imps : list spec_float)
  : list row :=
  match names, imps with
  | n :: names', w :: imps' =>
      {| index := i; feature := n; importance := w |}
        :: rows_from (S i) names' imps'
  | _, _ => []
  end.

(** [pd.DataFrame({'feature': names, 'importance': imps})]: the columns must
    have one length. *)
Definition DataFrame (names : list string) (imps : list spec_float)
  : exn + list row :=
  if Nat.eqb (List.length names) (List.length imps)
  then inr (rows_from 0 names imps)
  else inl (ValueError_lengths (List.length names) (List.length imps)).

(** No row comes before a row of strictly greater importance. *)
Definition not_below (a b : row) : Prop :=
  SFltb (importance a) (importance b) = false.

(** [df.sort_values('importance', ascending=False)], by its contract: the
    same rows, by descending importance.  The call leaves [kind] at its
    default, for which pandas promises no order among equal keys. *)
Class SortValues : Type := {
  sort_values : list row -> list row;
  sort_values_perm : forall df, Permutation df (sort_values df);
  sort_values_desc : forall df, StronglySorted not_below (sort_values df)
}.

(** [df.head(n)]. *)
Definition head (n : nat) (df : list row) : list row := firstn n df.

(** [st.progress(value)] on a float, by its contract: a value in [0,1] is
    accepted; which other values it refuses (NaN, values outside the
    interval) is decided by the library and left open here. *)
Class Streamlit : Type := {
  progress_accepts : spec_float -> bool;
  progress_accepts_unit :
    forall value, F.in_unit value = true -> progress_accepts value = true
}.

(** ** Recommendations (lines 93-112) *)

Definition indent12 : string := "            ".

(** The text of a triple-quoted block of bullet lines, as it is laid out
    in the source: a newline, the indented lines, the closing indent. *)
Definition md_block (items : list string) : string :=
  newline ++
  fold_right (fun it acc => indent12 ++ "- " ++ it ++ newline ++ acc)
             indent12 items.

Definition low_risk_items : list string :=
  [ "Maintain your healthy lifestyle";
    "Continue regular check-ups";
    "Monitor your blood sugar levels annually" ].

Definition moderate_risk_items : list string :=
  [ "Consider lifestyle modifications (diet, exercise)";
    "Monitor your blood sugar levels more frequently";
    "Consult with your healthcare provider about prevention strategies";
    "Consider losing weight if overweight" ].

Definition high_risk_items : list string :=
  [ "Please consult with a healthcare provider immediately";
    "Significant lifestyle changes are recommended";
    "Regular monitoring of blood sugar levels is essential";
    "You may need medical intervention" ].

Definition recommendations (risk_level : string) : M unit :=
  if String.eqb risk_level "Low Risk" then
    emit (st_success (md_block low_risk_items))
  else if String.eqb risk_level "Moderate Risk" then
    emit (st_warning (md_block moderate_risk_items))
  else
    emit (st_error [Lit (md_block high_risk_items)]).

(** ** Key factors (lines 123-139) *)

Definition hba1c_sentence (f : form) : fstring :=
  [ Lit (red_circle ++ " **High HbA1c Level**: Your HbA1c level of ");
    FFloat (hba1c_level f); Lit " is a significant factor." ].

Definition glucose_sentence (f : form) : fstring :=
  [ Lit (red_circle ++ " **Blood Glucose Level**: Your blood glucose level of ");
    FInt (blood_glucose_level f); Lit " impacts your risk." ].

Definition bmi_sentence (f : form) : fstring :=
  [ Lit (red_circle ++ " **BMI**: Your BMI of ");
    FFloat (bmi f); Lit " contributes to your risk assessment." ].

Definition age_sentence (f : form) : fstring :=
  [ Lit (red_circle ++ " **Age**: At ");
    FInt (age f); Lit " years, age is a contributing factor." ].

Definition hypertension_sentence : fstring :=
  [ Lit (red_circle ++
         " **Hypertension**: Having hypertension increases your risk.") ].

Definition heart_disease_sentence : fstring :=
  [ Lit (red_circle ++
         " **Heart Disease**: Existing heart disease is a risk factor.") ].

(** The body of the loop, for one row of [top_features]. *)
Definition key_factor (f : form) (feature_name : string) : M unit :=
  if str_in "HbA1c_level" feature_name then
    emit (st_write (hba1c_sentence f))
  else if str_in "blood_glucose_level" feature_name then
    emit (st_write (glucose_sentence f))
  else if str_in "bmi" feature_name then
    emit (st_write (bmi_sentence f))
  else if str_in "age" feature_name then
    emit (st_write (age_sentence f))
  else if str_in "hypertension" feature_name
          && String.eqb (yes_no_label (hypertension f)) "Yes" then
    emit (st_write hypertension_sentence)
  else if str_in "heart_disease" feature_name
          && String.eqb (yes_no_label (heart_disease f)) "Yes" then
    emit (st_write heart_disease_sentence)
  else ret tt.

(** ** The assessment (lines 47-142) *)

Section Assessment.

Context {pandas : SortValues}.
Context {streamlit : Streamlit}.

(** [feature_importance.sort_values('importance', ascending=False).head(3)] *)
Definition top_features (feature_importance : list row) : list row :=
  head 3 (sort_values feature_importance).

(** Lines 115-139. *)
Definition explain (model : Model) (feature_names : list string) (f : form)
  : M unit :=
  match feature_importances_ model with
  | Some importances =>
      emit (st_subheader "Key Factors Influencing Your Risk") ;;;
      feature_importance <- lift (DataFrame feature_names importances) ;;
      for_each (top_features feature_importance)
               (fun r => key_factor f (feature r))
  | None => ret tt
  end.

(** [st.progress(value)]: the bar is drawn, or the value is refused. *)
Definition progress (value : spec_float) : M unit :=
  if progress_accepts value then emit (st_progress value)
  else lift (inl (StreamlitAPIException value)).

(** Lines 66-112, once [risk_score] is known. *)
Definition show_results (risk_score : spec_float) : M unit :=
  emit (st_subheader "Risk Assessment Results") ;;;
  let (risk_level, color) := risk_level_of risk_score in
  emit (st_metric "Diabetes Risk Score" [FPercent1 risk_score]
                  risk_level "off") ;;;
  progress risk_score ;;;
  emit (st_write
          [ Lit "Based on your inputs, your risk of diabetes is classified as **:";
            Lit color; Lit "["; Lit risk_level; Lit "]**." ]) ;;;
  emit (st_subheader "Recommendations") ;;;
  recommendations risk_level.

(** Lines 62-63: [model.predict_proba(input_data)], then [prediction[0][1]]. *)
Definition call_predict_proba (model : Model) (X : input_row)
  : M (list (list spec_float)) :=
  ([model_predict_proba X], predict_proba model X).

Definition predict (model : Model) (f : form) : M spec_float :=
  prediction <- call_predict_proba model (input_data f) ;;
  first <- lift (getitem prediction 0) ;;
  lift (getitem first 1).

(** The [try] body. *)
Definition assessment_body (model : Model) (feature_names : list string)
  (f : form) : M unit :=
  risk_score <- predict model f ;;
  show_results risk_score ;;;
  explain model feature_names f.

(** What a submission does: the [try] with its [except]. *)
Definition assessment (model : Model) (feature_names : list string)
  (f : form) : M unit :=
  try_except (assessment_body model feature_names f)
    (fun e => emit (st_error [Lit "An error occurred: "; FStr e])).

(** The script is run again at each interaction; the assessment is made
    only when the form was submitted (line 47). *)
Definition on_rerun (submitted : bool) (model : Model)
  (feature_names : list string) (f : form) : M unit :=
  if submitted then assessment model feature_names f else ret tt.

End Assessment.

(** The value of [risk_score] at line 63, or the exception raised on the
    way to it. *)
Definition risk_score (model : Model) (f : form) : exn + spec_float :=
  outcome (predict model f).

(** ** An implementation of [sort_values], and one of [st.progress]

    The sort puts the rows by descending importance with the NaN rows
    last, and keeps rows of equal importance in their original order.  The
    progress bar accepts exactly the scores in [0,1].  Both are used in
    the examples. *)

(** [a] may come before [b]: [b] is NaN, or neither is and [b <= a]. *)
Definition may_precede (a b : row) : bool :=
  F.is_nan (importance b)
  || (negb (F.is_nan (importance a))
      && SFleb (importance b) (importance a)).

Fixpoint insert_row (x : row) (l : list row) : list row :=
  match l with
  | [] => [x]
  | y :: rest =>
      if may_precede x y then x :: y :: rest
      else y :: insert_row x rest
  end.

Definition insertion_sort (l : list row) : list row :=
  fold_right insert_row [] l.

(** ** The specification's vocabulary *)

(** The recommendation block of a band: the list of section 4.1, in the
    widget the page shows it with. *)
Definition canned (b : band) : event :=
  match b with
  | Low => st_success (md_block low_risk_items)
  | Moderate => st_warning (md_block moderate_risk_items)
  | High => st_error [Lit (md_block high_risk_items)]
  end.

(** An event that shows a recommendation block: a success box, a warning
    box, or an error box holding one literal text. *)
Definition is_recommendation (ev : event) : bool :=
  match ev with
  | st_success _ | st_warning _ | st_error [Lit _] => true
  | _ => false
  end.

(** The message of the [except] clause. *)
Definition failure_message (e : exn) : event :=
  st_error [Lit "An error occurred: "; FStr e].

Definition is_failure_message (ev : event) : bool :=
  match ev with
  | st_error [Lit _; FStr _] => true
  | _ => false
  end.

(** The texts written by [st.write] in a trace. *)
Definition sentences_of (trace : list event) : list fstring :=
  flat_map (fun ev => match ev with st_write t => [t] | _ => [] end) trace.

(** The calls of the model in a trace. *)
Definition model_calls (trace : list event) : list input_row :=
  flat_map (fun ev => match ev with model_predict_proba X => [X] | _ => [] end)
           trace.

(** The events of lines 66-92, before the recommendation block. *)
Definition results_head (p : spec_float) : list event :=
  [ st_subheader "Risk Assessment Results";
    st_metric "Diabetes Risk Score" [FPercent1 p] (risk_level p) "off";
    st_progress p;
    st_write
      [ Lit "Based on your inputs, your risk of diabetes is classified as **:";
        Lit (color p); Lit "["; Lit (risk_level p); Lit "]**." ];
    st_subheader "Recommendations" ].

(** The title of the last section (line 116). *)
Definition key_factors_title : event :=
  st_subheader "Key Factors Influencing Your Risk".

(** What the loop of lines 123-139 writes for the given rows. *)
Definition key_factor_lines (f : form) (rows : list row) : list event :=
  flat_map (fun r => output (key_factor f (feature r))) rows.

(** The flag of the input record behind a Yes/No answer. *)
Definition flag (v : yes_no) : bool :=
  match v with Yes => true | No => false end.

(** A feature name is matchable: a template covers it and the template's
    condition on the input holds. *)
Definition covered (f : form) (name : string) : bool :=
  str_in "HbA1c_level" name
  || str_in "blood_glucose_level" name
  || str_in "bmi" name
  || str_in "age" name
  || (str_in "hypertension" name && flag (hypertension f))
  || (str_in "heart_disease" name && flag (heart_disease f)).

(** A feature name no template mentions. *)
Definition unmapped (name : string) : bool :=
  negb (str_in "HbA1c_level" name
        || str_in "blood_glucose_level" name
        || str_in "bmi" name
        || str_in "age" name
        || str_in "hypertension" name
        || str_in "heart_disease" name).

(** The table of templates, by priority: the substring looked for, the
    condition on the input, the sentence. *)
Record template : Type := {
  needle : string;
  applies : form -> bool;
  sentence : form -> fstring
}.

Definition templates : list template :=
  [ {| needle := "HbA1c_level"; applies := fun _ => true;
       sentence := hba1c_sentence |};
    {| needle := "blood_glucose_level"; applies := fun _ => true;
       sentence := glucose_sentence |};
    {| needle := "bmi"; applies := fun _ => true;
       sentence := bmi_sentence |};
    {| needle := "age"; applies := fun _ => true;
       sentence := age_sentence |};
    {| needle := "hypertension"; applies := fun f => flag (hypertension f);
       sentence := fun _ => hypertension_sentence |};
    {| needle := "heart_disease"; applies := fun f => flag (heart_disease f);
       sentence := fun _ => heart_disease_sentence |} ].

(** The sentence of the first template of the table that matches. *)
Fixpoint first_match (ts : list template) (f : form) (name : string)
  : option fstring :=
  match ts with
  | [] => None
  | t :: rest =>
      if str_in (needle t) name && applies t f then Some (sentence t f)
      else first_match rest f name
  end.

(** Two rows whose importances are different numbers: one is strictly
    below the other. *)
Definition comparable (a b : row) : Prop :=
  SFltb (importance a) (importance b) = true
  \/ SFltb (importance b) (importance a) = true.

(** The importances of a frame are pairwise different numbers. *)
Definition different_weights (df : list row) : Prop :=
  ForallOrdPairs comparable df.

(** The rows the selection leaves out. *)
Definition left_out {pandas : SortValues} (df : list row) : list row :=
  skipn 3 (sort_values df).

(** ** Inputs used in the examples *)

(** The submission of the end-to-end scenario of section 8. *)
Definition scenario_form : form := {|
  gender := Female;
  age := 45;
  hypertension := No;
  heart_disease := No;
  smoking_history := Never;
  bmi := S754_finite false 7740561859543040 (-48);          (* 27.5 *)
  hba1c_level := S754_finite false 6755399441055744 (-50);  (* 6.0 *)
  blood_glucose_level := 130
|}.

(** A predictor that answers [[q, p]] to every input. *)
Definition stub_model (q p : spec_float) (imps : option (list spec_float))
  : Model := {|
  predict_proba := fun _ => inr [[q; p]];
  feature_importances_ := imps
|}.

(** A predictor that raises. *)
Definition failing_model (msg : string) : Model := {|
  predict_proba := fun _ => inl (ModelFailure msg);
  feature_importances_ := None
|}.

Definition c0_35 : spec_float := S754_finite false 6305039478318694 (-54).
Definition c0_65 : spec_float := S754_finite false 5854679515581645 (-53).
Definition c0_25 : spec_float := S754_finite false 4503599627370496 (-54).
Definition c0_199999 : spec_float := S754_finite false 7205723374995775 (-55).
Definition c0_499999 : spec_float := S754_finite false 9007181240342483 (-54).

(** A frame of four features, three of them of one importance. *)
Definition four_features : list string :=
  ["HbA1c_level"; "gender"; "hypertension"; "age"].

Definition four_importances : list spec_float :=
  [F.c0_5; c0_25; c0_25; c0_25].

(** The results section of a trace: the six events after the call of the
    model. *)
Definition results_section (trace : list event) : list event :=
  firstn 6 (skipn 1 trace).

(** * Facts about the embedding *)

Lemma lit_0_2 : F.lit 0x1.999999999999ap-3%float = F.c0_2.
Proof. vm_compute. reflexivity. Qed.

Lemma lit_0_5 : F.lit 0.5%float = F.c0_5.
Proof. vm_compute. reflexivity. Qed.

Lemma lit_1 : F.lit 1%float = F.one /\ F.lit 0%float = F.zero.
Proof. vm_compute. split; reflexivity. Qed.

Lemma lit_examples :
  F.lit 0x1.6666666666666p-2%float = c0_35
  /\ F.lit 0x1.4cccccccccccdp-1%float = c0_65
  /\ F.lit 0.25%float = c0_25
  /\ F.lit 0x1.99991361dc93fp-3%float = c0_199999
  /\ F.lit 0x1.ffffbce4217d3p-2%float = c0_499999
  /\ F.lit 27.5%float = bmi scenario_form
  /\ F.lit 6%float = hba1c_level scenario_form.
Proof. vm_compute. repeat split; reflexivity. Qed.

(** The three blocks, as the source spells them between its triple
    quotes. *)
Lemma md_block_texts :
  md_block low_risk_items = "
            - Maintain your healthy lifestyle
            - Continue regular check-ups
            - Monitor your blood sugar levels annually
            "
  /\ md_block moderate_risk_items = "
            - Consider lifestyle modifications (diet, exercise)
            - Monitor your blood sugar levels more frequently
            - Consult with your healthcare provider about prevention strategies
            - Consider losing weight if overweight
            "
  /\ md_block high_risk_items = "
            - Please consult with a healthcare provider immediately
            - Significant lifestyle changes are recommended
            - Regular monitoring of blood sugar levels is essential
            - You may need medical intervention
            ".
Proof. repeat split; reflexivity. Qed.

(** ** The order of floats

    [SFcompare] orders the floats that are not NaN: it is a comparison of
    signs, then of exponents, then of mantissas.  The facts below hold at
    every [spec_float]. *)

Section FloatOrder.

Local Ltac cmp_cases :=
  repeat match goal with
  | |- context [Pos.compare_cont Eq ?a ?b] =>
      change (Pos.compare_cont Eq a b) with (Pos.compare a b)
  | H : context [Pos.compare_cont Eq ?a ?b] |- _ =>
      change (Pos.compare_cont Eq a b) with (Pos.compare a b) in H
  end;
  repeat match goal with
  | |- context [Z.compare ?a ?b] => destruct (Z.compare_spec a b)
  | H : context [Z.compare ?a ?b] |- _ => destruct (Z.compare_spec a b)
  | |- context [Pos.compare ?a ?b] => destruct (Pos.compare_spec a b)
  | H : context [Pos.compare ?a ?b] |- _ => destruct (Pos.compare_spec a b)
  end;
  simpl in *; try discriminate; try reflexivity; try lia.

Lemma SFcompare_antisym (a b : spec_float) :
  SFcompare b a = option_map CompOpp (SFcompare a b).
Proof.
  destruct a as [sa|sa| |sa ma ea], b as [sb|sb| |sb mb eb]; simpl;
    try reflexivity; try (destruct sa; reflexivity);
    try (destruct sb; reflexivity);
    destruct sa, sb; try reflexivity; f_equal; cmp_cases.
Qed.

Lemma SFltb_irrefl (a : spec_float) : SFltb a a = false.
Proof.
  unfold SFltb. destruct a as [s|s| |s m e]; simpl; try reflexivity;
    destruct s; try reflexivity; cmp_cases.
Qed.

Lemma SFleb_ltb_trans (a b c : spec_float) :
  SFleb a b = true -> SFltb b c = true -> SFltb a c = true.
Proof.
  unfold SFleb, SFltb.
  destruct a as [sa|sa| |sa ma ea], b as [sb|sb| |sb mb eb],
           c as [sc|sc| |sc mc ec]; simpl;
    try discriminate; try reflexivity;
    try (destruct sa); try (destruct sb); try (destruct sc);
    try discriminate; try reflexivity; intros Hab Hbc; cmp_cases.
Qed.

Lemma SFleb_not_ltb (a b : spec_float) :
  SFleb a b = true -> SFltb b a = false.
Proof.
  unfold SFleb, SFltb. rewrite (SFcompare_antisym a b).
  destruct (SFcompare a b) as [[ | | ]|]; simpl; congruence.
Qed.

Lemma SFltb_not_leb (a b : spec_float) :
  SFltb a b = true -> SFleb b a = false.
Proof.
  unfold SFleb, SFltb. rewrite (SFcompare_antisym a b).
  destruct (SFcompare a b) as [[ | | ]|]; simpl; congruence.
Qed.

(** Two floats that are not NaN are comparable. *)
Lemma SFltb_false_leb (a b : spec_float) :
  F.is_nan a = false -> F.is_nan b = false ->
  SFltb a b = false -> SFleb b a = true.
Proof.
  unfold SFleb, SFltb.
  destruct a as [sa|sa| |sa ma ea], b as [sb|sb| |sb mb eb]; simpl;
    try discriminate; intros _ _;
    try (destruct sa); try (destruct sb); simpl;
    try discriminate; try reflexivity; intros Hab; cmp_cases.
Qed.

Lemma SFleb_trans (a b c : spec_float) :
  SFleb a b = true -> SFleb b c = true -> SFleb a c = true.
Proof.
  unfold SFleb.
  destruct a as [sa|sa| |sa ma ea], b as [sb|sb| |sb mb eb],
           c as [sc|sc| |sc mc ec]; simpl;
    try discriminate; try reflexivity;
    try (destruct sa); try (destruct sb); try (destruct sc);
    try discriminate; try reflexivity; intros Hab Hbc; cmp_cases.
Qed.

Lemma in_unit_not_nan (p : spec_float) :
  F.in_unit p = true -> F.is_nan p = false.
Proof. destruct p; simpl; try reflexivity. discriminate. Qed.

End FloatOrder.

Lemma may_precede_total (a b : row) :
  may_precede a b = false -> may_precede b a = true.
Proof.
  unfold may_precede. intros H.
  apply orb_false_iff in H as [Hb H].
  destruct (F.is_nan (importance a)) eqn:Ha; [reflexivity|].
  simpl in *. rewrite Hb. simpl.
  destruct (SFleb (importance a) (importance b)) eqn:Hab; [reflexivity|].
  exfalso.
  assert (Hlt : SFltb (importance b) (importance a) = false).
  { destruct (SFltb (importance b) (importance a)) eqn:E; [|reflexivity].
    unfold SFltb, SFleb in *.
    destruct (SFcompare (importance b) (importance a)) as [[ | | ]|];
      discriminate. }
  pose proof (SFltb_false_leb _ _ Hb Ha Hlt). congruence.
Qed.

Lemma may_precede_trans (a b c : row) :
  may_precede a b = true -> may_precede b c = true ->
  may_precede a c = true.
Proof.
  unfold may_precede. intros Hab Hbc.
  destruct (F.is_nan (importance c)) eqn:Hc; [reflexivity|].
  simpl in *. apply andb_true_iff in Hbc as [Hb Hcb].
  apply negb_true_iff in Hb. rewrite Hb in Hab. simpl in Hab.
  apply andb_true_iff in Hab as [Ha Hba]. rewrite Ha. simpl.
  eapply SFleb_trans; eassumption.
Qed.

Lemma may_precede_not_below (a b : row) :
  may_precede a b = true -> not_below a b.
Proof.
  unfold may_precede, not_below. intros H.
  apply orb_true_iff in H as [H|H].
  - destruct (importance b); try discriminate.
    unfold SFltb. destruct (importance a); reflexivity.
  - apply andb_true_iff in H as [_ H]. now apply SFleb_not_ltb.
Qed.

Lemma insert_row_perm (x : row) (l : list row) :
  Permutation (x :: l) (insert_row x l).
Proof.
  induction l as [|y rest IH]; simpl.
  - apply Permutation_refl.
  - destruct (may_precede x y).
    + apply Permutation_refl.
    + eapply Permutation_trans; [apply perm_swap|].
      now apply perm_skip.
Qed.

Lemma insertion_sort_perm (l : list row) : Permutation l (insertion_sort l).
Proof.
  induction l as [|x l IH]; simpl.
  - apply Permutation_refl.
  - eapply Permutation_trans; [|apply insert_row_perm].
    now apply perm_skip.
Qed.

Lemma insert_row_sorted (x : row) (l : list row) :
  StronglySorted (fun a b => may_precede a b = true) l ->
  StronglySorted (fun a b => may_precede a b = true) (insert_row x l).
Proof.
  induction 1 as [|y rest Hs IH Hy]; simpl.
  - constructor; constructor.
  - destruct (may_precede x y) eqn:E.
    + constructor.
      * constructor; assumption.
      * constructor; [assumption|].
        eapply Forall_impl; [|exact Hy].
        intros z Hz. eapply may_precede_trans; eassumption.
    + constructor; [assumption|].
      apply (Permutation_Forall (insert_row_perm x rest)).
      constructor; [|assumption].
      now apply may_precede_total.
Qed.

Lemma insertion_sort_sorted (l : list row) :
  StronglySorted (fun a b => may_precede a b = true) (insertion_sort l).
Proof.
  induction l as [|x l IH]; simpl.
  - constructor.
  - now apply insert_row_sorted.
Qed.

Lemma StronglySorted_weaken {A : Type} (R S : A -> A -> Prop) (l : list A) :
  (forall a b, R a b -> S a b) -> StronglySorted R l -> StronglySorted S l.
Proof.
  intros HRS. induction 1 as [|x l Hs IH Hx]; constructor.
  - assumption.
  - eapply Forall_impl; [|exact Hx]. intros b. apply HRS.
Qed.

Lemma insertion_sort_desc (l : list row) :
  StronglySorted not_below (insertion_sort l).
Proof.
  eapply StronglySorted_weaken; [|apply insertion_sort_sorted].
  exact may_precede_not_below.
Qed.

(** The sort that keeps ties in their original order. *)
Definition stable_sort : SortValues := {|
  sort_values := insertion_sort;
  sort_values_perm := insertion_sort_perm;
  sort_values_desc := insertion_sort_desc
|}.

(** The progress bar that accepts the scores in [0,1] and no other. *)
Definition progress_in_unit : Streamlit := {|
  progress_accepts := F.in_unit;
  progress_accepts_unit := fun value H => H
|}.

(** ** The risk level *)

Lemma risk_level_of_cases (p : spec_float) :
  (SFltb p F.c0_2 = true /\ risk_level_of p = ("Low Risk", "green"))
  \/ (SFltb p F.c0_2 = false /\ SFltb p F.c0_5 = true
      /\ risk_level_of p = ("Moderate Risk", "orange"))
  \/ (SFltb p F.c0_2 = false /\ SFltb p F.c0_5 = false
      /\ risk_level_of p = ("High Risk", "red")).
Proof.
  unfold risk_level_of.
  destruct (SFltb p F.c0_2); [left; split; reflexivity|].
  destruct (SFltb p F.c0_5); [right; left|right; right]; repeat split.
Qed.

Lemma risk_level_is_band (p : spec_float) :
  exists b, risk_level p = band_label b.
Proof.
  unfold risk_level.
  destruct (risk_level_of_cases p) as [[_ E]|[(_ & _ & E)|(_ & _ & E)]];
    rewrite E; [exists Low|exists Moderate|exists High]; reflexivity.
Qed.

Lemma band_label_inj (b1 b2 : band) :
  band_label b1 = band_label b2 -> b1 = b2.
Proof. destruct b1, b2; simpl; intros H; try reflexivity; discriminate. Qed.

Lemma band_of_label_label (b : band) : band_of_label (band_label b) = Some b.
Proof. destruct b; reflexivity. Qed.

Lemma recommendations_canned (b : band) :
  recommendations (band_label b) = emit (canned b).
Proof. destruct b; reflexivity. Qed.

(** ** The trace of a submission *)

Lemma key_factor_returns (f : form) (name : string) :
  key_factor f name = (output (key_factor f name), inr tt).
Proof.
  unfold key_factor.
  repeat match goal with
         | |- context [if ?c then _ else _] => destruct c
         end; reflexivity.
Qed.

Lemma for_each_key_factor (f : form) (rows : list row) :
  for_each rows (fun r => key_factor f (feature r))
  = (flat_map (fun r => output (key_factor f (feature r))) rows, inr tt).
Proof.
  induction rows as [|r rows IH]; simpl.
  - reflexivity.
  - rewrite IH, (key_factor_returns f (feature r)). reflexivity.
Qed.

Lemma show_results_trace {streamlit : Streamlit} (p : spec_float) (b : band) :
  progress_accepts p = true ->
  risk_level p = band_label b ->
  show_results p = ((results_head p ++ [canned b])%list, inr tt).
Proof.
  unfold show_results, progress, results_head, risk_level, color.
  intros ->. destruct (risk_level_of p) as [lvl col]. simpl. intros ->.
  rewrite recommendations_canned. reflexivity.
Qed.

(** When the progress bar refuses the score, the results stop after the
    metric. *)
Lemma show_results_refused {streamlit : Streamlit} (p : spec_float) :
  progress_accepts p = false ->
  show_results p
  = (firstn 2 (results_head p), inl (StreamlitAPIException p)).
Proof.
  unfold show_results, progress, results_head, risk_level, color.
  intros ->. destruct (risk_level_of p) as [lvl col]. reflexivity.
Qed.

Lemma predict_trace (model : Model) (f : form) :
  predict model f = ([model_predict_proba (input_data f)], risk_score model f).
Proof.
  unfold risk_score, outcome, predict, call_predict_proba, bind, lift.
  destruct (predict_proba model (input_data f)) as [e|prediction]; simpl.
  - reflexivity.
  - destruct (getitem prediction 0) as [e|first]; simpl; [reflexivity|].
    destruct (getitem first 1); reflexivity.
Qed.

Section Traces.

Context {pandas : SortValues}.
Context {streamlit : Streamlit}.

Lemma explain_without_importances model names f :
  feature_importances_ model = None -> explain model names f = ret tt.
Proof. unfold explain. intros ->. reflexivity. Qed.

Lemma explain_with_frame model names f imps df :
  feature_importances_ model = Some imps ->
  DataFrame names imps = inr df ->
  explain model names f
  = (key_factors_title :: key_factor_lines f (top_features df), inr tt).
Proof.
  unfold explain. intros -> Hdf. unfold lift. rewrite Hdf. simpl.
  rewrite for_each_key_factor. reflexivity.
Qed.

Lemma explain_without_frame model names f imps e :
  feature_importances_ model = Some imps ->
  DataFrame names imps = inl e ->
  explain model names f = ([key_factors_title], inl e).
Proof.
  unfold explain. intros -> Hdf. unfold lift. rewrite Hdf. reflexivity.
Qed.

(** The events of [explain] are the title and lines written by the loop:
    never a recommendation, a message of failure or a call of the model. *)
Lemma explain_cases model names f :
  explain model names f = ret tt
  \/ (exists e, explain model names f = ([key_factors_title], inl e))
  \/ (exists df,
        explain model names f
        = (key_factors_title :: key_factor_lines f (top_features df), inr tt)).
Proof.
  destruct (feature_importances_ model) as [imps|] eqn:Hi.
  - destruct (DataFrame names imps) as [e|df] eqn:Hdf.
    + right; left. exists e. now apply explain_without_frame with imps.
    + right; right. exists df. now apply explain_with_frame with imps.
  - left. now apply explain_without_importances.
Qed.

Lemma assessment_when_predict_fails model names f e :
  risk_score model f = inl e ->
  assessment model names f
  = ([model_predict_proba (input_data f); failure_message e], inr tt).
Proof.
  intros H. unfold assessment, assessment_body.
  rewrite predict_trace, H. reflexivity.
Qed.

Lemma assessment_when_predict_returns model names f p b :
  risk_score model f = inr p ->
  progress_accepts p = true ->
  risk_level p = band_label b ->
  assessment model names f
  = ((model_predict_proba (input_data f) :: results_head p ++ [canned b]
      ++ output (explain model names f)
      ++ match outcome (explain model names f) with
         | inl e => [failure_message e]
         | inr _ => []
         end)%list, inr tt).
Proof.
  intros H Hacc Hb. unfold assessment, assessment_body.
  rewrite predict_trace, H. unfold bind at 1.
  unfold bind. rewrite (show_results_trace p b Hacc Hb).
  destruct (explain model names f) as [out [e|[]]]; simpl;
    rewrite <- ?app_assoc; simpl; rewrite ?app_nil_r; reflexivity.
Qed.

(** When the progress bar refuses the score: the title of the results, the
    metric with the band, and the message of failure. *)
Lemma assessment_when_progress_refuses model names f p :
  risk_score model f = inr p ->
  progress_accepts p = false ->
  assessment model names f
  = ((model_predict_proba (input_data f) :: firstn 2 (results_head p)
      ++ [failure_message (StreamlitAPIException p)])%list, inr tt).
Proof.
  intros H Hacc. unfold assessment, assessment_body.
  rewrite predict_trace, H. unfold bind.
  rewrite (show_results_refused p Hacc). reflexivity.
Qed.

End Traces.

(** * The claims *)

(** C1. For every probability [p] in [0,1] the classifier gives exactly one
    band, with half-open, lower-inclusive boundaries: [p < 0.2] gives Low,
    [0.2 <= p < 0.5] gives Moderate, [0.5 <= p] gives High, and each band
    is given only there.  At the boundaries: 0.0 and 0.199999 are Low, 0.2
    and 0.499999 are Moderate, 0.5 and 1.0 are High.  The comparisons are
    those of binary64 floats, the thresholds the literals of the source. *)
Theorem C1_risk_level_bands (p : spec_float) :
  F.in_unit p = true ->
  (SFltb p F.c0_2 = true <-> risk_level p = "Low Risk")
  /\ (SFleb F.c0_2 p = true /\ SFltb p F.c0_5 = true
      <-> risk_level p = "Moderate Risk")
  /\ (SFleb F.c0_5 p = true <-> risk_level p = "High Risk")
  /\ (exists b, risk_level p = band_label b
                /\ forall b', risk_level p = band_label b' -> b' = b)
  /\ risk_level F.zero = "Low Risk"
  /\ risk_level c0_199999 = "Low Risk"
  /\ risk_level F.c0_2 = "Moderate Risk"
  /\ risk_level c0_499999 = "Moderate Risk"
  /\ risk_level F.c0_5 = "High Risk"
  /\ risk_level F.one = "High Risk".
Proof.
  intros Hp. pose proof (in_unit_not_nan p Hp) as Hnan.
  assert (Hc2 : F.is_nan F.c0_2 = false) by reflexivity.
  assert (Hc5 : F.is_nan F.c0_5 = false) by reflexivity.
  split; [|split; [|split; [|split; [|repeat split; reflexivity]]]].
  - unfold risk_level.
    destruct (risk_level_of_cases p) as [[H E]|[(H & _ & E)|(H & _ & E)]];
      rewrite E; simpl; split; intros H'; congruence.
  - unfold risk_level.
    destruct (risk_level_of_cases p) as [[H E]|[(H & H5 & E)|(H & H5 & E)]];
      rewrite E; simpl; split.
    + intros [H' _]. apply SFleb_not_ltb in H'. congruence.
    + discriminate.
    + reflexivity.
    + intros _. split; [|assumption]. now apply SFltb_false_leb.
    + intros [_ H']. congruence.
    + discriminate.
  - unfold risk_level.
    destruct (risk_level_of_cases p) as [[H E]|[(H & H5 & E)|(H & H5 & E)]];
      rewrite E; simpl; split.
    + intros H'. pose proof (SFleb_ltb_trans _ _ _ H' H) as Hx.
      vm_compute in Hx. discriminate.
    + discriminate.
    + intros H'. apply SFleb_not_ltb in H'. congruence.
    + discriminate.
    + reflexivity.
    + intros _. now apply SFltb_false_leb.
  - destruct (risk_level_is_band p) as [b Hb]. exists b. split; [exact Hb|].
    intros b' Hb'. apply band_label_inj. congruence.
Qed.

Lemma C1_risk_level_bands_witness :
  F.in_unit c0_35 = true /\ risk_level c0_35 = "Moderate Risk".
Proof.
  split; [reflexivity|].
  apply (proj1 (proj2 (C1_risk_level_bands c0_35 eq_refl))).
  split; reflexivity.
Defined.

(** C9. The band is a monotonic function of the probability and of nothing
    else: if [p1 <= p2] then the band of [p1] is at most the band of [p2]
    in the order Low < Moderate < High; and whatever the model, the
    feature names, the form, the sort and the progress bar, a submission
    whose probability is [p], in [0,1], shows the results section that [p]
    alone determines. *)
Theorem C9_band_monotone_and_pure :
  (forall p1 p2 : spec_float,
      SFleb p1 p2 = true ->
      exists b1 b2,
        band_of_label (risk_level p1) = Some b1
        /\ band_of_label (risk_level p2) = Some b2
        /\ band_le b1 b2)
  /\ (forall p : spec_float,
       F.in_unit p = true ->
       exists b,
         risk_level p = band_label b
         /\ forall (pandas : SortValues) (streamlit : Streamlit)
                   model names f,
             risk_score model f = inr p ->
             results_section (output (assessment model names f))
             = (results_head p ++ [canned b])%list).
Proof.
  split.
  - intros p1 p2 Hle. unfold risk_level, band_le.
    destruct (risk_level_of_cases p1) as [[H1 E1]|[(H1 & G1 & E1)|(H1 & G1 & E1)]];
      destruct (risk_level_of_cases p2) as [[H2 E2]|[(H2 & G2 & E2)|(H2 & G2 & E2)]];
      rewrite E1, E2; simpl;
      try (eexists; eexists; split; [reflexivity|split; [reflexivity|]];
           simpl; lia).
    + pose proof (SFleb_ltb_trans _ _ _ Hle H2). congruence.
    + pose proof (SFleb_ltb_trans _ _ _ Hle H2). congruence.
    + pose proof (SFleb_ltb_trans _ _ _ Hle G2). congruence.
  - intros p Hp. destruct (risk_level_is_band p) as [b Hb]. exists b.
    split; [exact Hb|]. intros pandas streamlit model names f Hr.
    rewrite (assessment_when_predict_returns model names f p b Hr
               (progress_accepts_unit p Hp) Hb).
    unfold results_section, output. simpl. destruct b; reflexivity.
Qed.

Lemma C9_band_monotone_and_pure_witness :
  (exists b1 b2,
      band_of_label (risk_level c0_35) = Some b1
      /\ band_of_label (risk_level F.c0_5) = Some b2
      /\ band_le b1 b2)
  /\ results_section
       (output (@assessment stable_sort progress_in_unit
                            (stub_model c0_65 c0_35 None) []
                            scenario_form))
     = (results_head c0_35 ++ [canned Moderate])%list.
Proof.
  split.
  - apply (proj1 C9_band_monotone_and_pure c0_35 F.c0_5). reflexivity.
  - destruct (proj2 C9_band_monotone_and_pure c0_35 eq_refl) as [b [Hb H]].
    assert (b = Moderate) as -> by (apply band_label_inj; symmetry; exact Hb).
    apply H. reflexivity.
Defined.

(** ** Recommendations *)

Lemma key_factor_spec (f : form) (name : string) :
  key_factor f name
  = match first_match templates f name with
    | Some s => emit (st_write s)
    | None => ret tt
    end.
Proof.
  unfold key_factor. simpl.
  assert (Hflag : forall v, String.eqb (yes_no_label v) "Yes" = flag v)
    by (intros []; reflexivity).
  rewrite !Hflag, !andb_true_r.
  repeat match goal with
         | |- context [if ?c then _ else _] => destruct c; try reflexivity
         end.
Qed.

Lemma key_factor_output (f : form) (name : string) :
  output (key_factor f name)
  = match first_match templates f name with
    | Some s => [st_write s]
    | None => []
    end.
Proof.
  rewrite key_factor_spec. destruct (first_match templates f name); reflexivity.
Qed.

Lemma in_key_factor_lines (f : form) (rows : list row) (ev : event) :
  In ev (key_factor_lines f rows) ->
  exists r s, In r rows /\ first_match templates f (feature r) = Some s
              /\ ev = st_write s.
Proof.
  unfold key_factor_lines. rewrite in_flat_map. intros (r & Hr & Hev).
  rewrite key_factor_output in Hev.
  destruct (first_match templates f (feature r)) as [s|] eqn:E.
  - destruct Hev as [<-|[]]. exists r, s. auto.
  - destruct Hev.
Qed.

Lemma filter_none {A : Type} (test : A -> bool) (l : list A) :
  (forall x, In x l -> test x = false) -> filter test l = [].
Proof.
  induction l as [|x l IH]; simpl; intros H; [reflexivity|].
  rewrite (H x (or_introl eq_refl)). apply IH. intros y Hy. apply H. now right.
Qed.

Section ExplainTrace.

Context {pandas : SortValues}.
Context {streamlit : Streamlit}.

(** What [explain] leaves in the trace is the title and lines of the loop. *)
Lemma in_explain model names f ev :
  In ev (output (explain model names f)) ->
  ev = key_factors_title
  \/ exists df r s, In r (top_features df)
                    /\ first_match templates f (feature r) = Some s
                    /\ ev = st_write s.
Proof.
  destruct (explain_cases model names f) as [E|[[e E]|[df E]]];
    rewrite E; unfold output; simpl.
  - intros [].
  - intros [<-|[]]. now left.
  - intros [<-|H]; [now left|]. right.
    apply in_key_factor_lines in H as (r & s & Hr & Hs & ->).
    exists df, r, s. auto.
Qed.

Lemma explain_tail_plain model names f (test : event -> bool) :
  test key_factors_title = false ->
  (forall t, test (st_write t) = false) ->
  (forall e, test (failure_message e) = false) ->
  filter test
    (output (explain model names f)
     ++ match outcome (explain model names f) with
        | inl e => [failure_message e]
        | inr _ => []
        end)%list = [].
Proof.
  intros Ht Hw Hf. apply filter_none. intros ev Hev.
  apply in_app_or in Hev as [Hev|Hev].
  - apply in_explain in Hev as [->|(df & r & s & _ & _ & ->)]; auto.
  - destruct (outcome (explain model names f)); [|destruct Hev].
    destruct Hev as [<-|[]]. auto.
Qed.

End ExplainTrace.

(** C2. The band shown and the recommendation block shown agree, for every
    probability in [0,1]: a submission whose probability is [p] shows the
    band of [p] in the metric, and the recommendation events of its trace are
    exactly the one block of that band (the three items of Low, the four
    of Moderate, the four of High), whatever else the page shows.  With a
    stub predictor answering 0.35 to the scenario of section 8 the band is
    Moderate and the block is the Moderate one. *)
Theorem C2_band_and_recommendations_agree
  (pandas : SortValues) (streamlit : Streamlit) (model : Model)
  (names : list string) (f : form) (p : spec_float) :
  F.in_unit p = true ->
  risk_score model f = inr p ->
  (exists b,
      risk_level p = band_label b
      /\ In (st_metric "Diabetes Risk Score" [FPercent1 p] (band_label b) "off")
            (output (assessment model names f))
      /\ filter is_recommendation (output (assessment model names f))
         = [canned b])
  /\ canned Low = st_success (md_block low_risk_items)
  /\ canned Moderate = st_warning (md_block moderate_risk_items)
  /\ canned High = st_error [Lit (md_block high_risk_items)]
  /\ List.length low_risk_items = 3
  /\ List.length moderate_risk_items = 4
  /\ List.length high_risk_items = 4
  /\ (forall q imps,
         risk_level c0_35 = band_label Moderate
         /\ filter is_recommendation
              (output (assessment (stub_model q c0_35 imps) names
                                  scenario_form))
            = [canned Moderate]).
Proof.
  assert (Hmain : forall model f p,
    F.in_unit p = true ->
    risk_score model f = inr p ->
    exists b,
      risk_level p = band_label b
      /\ In (st_metric "Diabetes Risk Score" [FPercent1 p] (band_label b) "off")
            (output (assessment model names f))
      /\ filter is_recommendation (output (assessment model names f))
         = [canned b]).
  { clear. intros model f p Hp Hr.
    destruct (risk_level_is_band p) as [b Hb]. exists b.
    split; [exact Hb|].
    rewrite (assessment_when_predict_returns model names f p b Hr
               (progress_accepts_unit p Hp) Hb).
    unfold output. simpl fst. split.
    - right. right. left. rewrite Hb. reflexivity.
    - pose proof (explain_tail_plain model names f is_recommendation
                    eq_refl (fun _ => eq_refl) (fun _ => eq_refl)) as Ht.
      unfold output in Ht.
      destruct b; cbn [filter is_recommendation results_head canned app];
        rewrite Ht; reflexivity. }
  intros Hp Hr. split; [now apply Hmain|].
  do 6 (split; [reflexivity|]).
  intros q imps. split; [reflexivity|].
  destruct (Hmain (stub_model q c0_35 imps) scenario_form c0_35
                  eq_refl eq_refl)
    as (b & Hb & _ & H).
  assert (b = Moderate) as -> by (apply band_label_inj; symmetry; exact Hb).
  exact H.
Qed.

Lemma C2_band_and_recommendations_agree_witness :
  F.in_unit c0_35 = true
  /\ risk_score (stub_model c0_65 c0_35 (Some [c0_65; c0_35])) scenario_form
     = inr c0_35
  /\ filter is_recommendation
       (output (@assessment stable_sort progress_in_unit
                  (stub_model c0_65 c0_35 (Some [c0_65; c0_35]))
                  ["age"; "HbA1c_level"] scenario_form))
     = [st_warning (md_block moderate_risk_items)].
Proof.
  split; [reflexivity|]. split; [reflexivity|].
  destruct (proj1 (C2_band_and_recommendations_agree
                     stable_sort progress_in_unit
                     (stub_model c0_65 c0_35 (Some [c0_65; c0_35]))
                     ["age"; "HbA1c_level"] scenario_form c0_35
                     eq_refl eq_refl))
    as (b & Hb & _ & H).
  assert (b = Moderate) as -> by (apply band_label_inj; symmetry; exact Hb).
  exact H.
Defined.

(** ** Importances that are missing, predictions that fail *)

Lemma risk_score_when_predict_proba_raises model f e :
  predict_proba model (input_data f) = inl e -> risk_score model f = inl e.
Proof.
  intros H. unfold risk_score, outcome, predict, call_predict_proba, bind.
  rewrite H. reflexivity.
Qed.

(** C7. When the classifier has no [feature_importances_], the attribution
    step writes nothing and raises nothing; a submission whose prediction
    succeeds, with a probability in [0,1], then shows the results section
    in full (band, score,
    recommendation block) and nothing after it: no key-factors title, no
    key-factor line, no message of failure, and the [try] body ends without
    an exception. *)
Theorem C7_missing_importances
  (pandas : SortValues) (streamlit : Streamlit) (model : Model)
  (names : list string) (f : form) :
  feature_importances_ model = None ->
  explain model names f = ret tt
  /\ forall p,
      F.in_unit p = true ->
      risk_score model f = inr p ->
      exists b,
        risk_level p = band_label b
        /\ output (assessment model names f)
           = (model_predict_proba (input_data f)
              :: results_head p ++ [canned b])%list
        /\ filter is_recommendation (output (assessment model names f))
           = [canned b]
        /\ ~ In key_factors_title (output (assessment model names f))
        /\ List.length (sentences_of (output (assessment model names f))) = 1
        /\ filter is_failure_message (output (assessment model names f)) = []
        /\ outcome (assessment_body model names f) = inr tt.
Proof.
  intros Hi. split; [now apply explain_without_importances|].
  intros p Hp Hr. destruct (risk_level_is_band p) as [b Hb]. exists b.
  split; [exact Hb|].
  assert (Hbody : assessment_body model names f
                  = ((model_predict_proba (input_data f)
                      :: results_head p ++ [canned b])%list, inr tt)).
  { unfold assessment_body. rewrite predict_trace, Hr.
    unfold bind.
    rewrite (show_results_trace p b (progress_accepts_unit p Hp) Hb).
    rewrite (explain_without_importances model names f Hi).
    unfold ret. rewrite app_nil_r. reflexivity. }
  assert (Hout : output (assessment model names f)
                 = (model_predict_proba (input_data f)
                    :: results_head p ++ [canned b])%list).
  { unfold assessment. rewrite Hbody. reflexivity. }
  rewrite Hout, Hbody.
  split; [reflexivity|].
  split; [destruct b; reflexivity|].
  split; [|split; [destruct b; reflexivity
                  |split; [destruct b; reflexivity|reflexivity]]].
  unfold results_head, key_factors_title. simpl.
  intros [H|[H|[H|[H|[H|[H|[H|[]]]]]]]]; try discriminate.
  destruct b; discriminate.
Qed.

Lemma C7_missing_importances_witness :
  output (@assessment stable_sort progress_in_unit
            (stub_model c0_65 c0_35 None)
            ["HbA1c_level"; "age"] scenario_form)
  = (model_predict_proba (input_data scenario_form)
     :: results_head c0_35 ++ [canned Moderate])%list.
Proof.
  destruct (proj2 (C7_missing_importances stable_sort progress_in_unit
                     (stub_model c0_65 c0_35 None)
                     ["HbA1c_level"; "age"] scenario_form eq_refl)
              c0_35 eq_refl eq_refl)
    as (b & Hb & H & _).
  assert (b = Moderate) as -> by (apply band_label_inj; symmetry; exact Hb).
  exact H.
Defined.

(** C8. When [predict_proba] raises, on behalf of the encoder or of the
    predictor inside the pipeline, the exception is caught by the [except]
    clause around the assessment: the trace is the one call of the model
    followed by the one message "An error occurred: " with the text of the
    exception.  The model is not called again, and no band, recommendation
    or key-factor line is shown. *)
Theorem C8_prediction_failure
  (pandas : SortValues) (streamlit : Streamlit) (model : Model)
  (names : list string) (f : form) (e : exn) :
  predict_proba model (input_data f) = inl e ->
  assessment model names f
  = ([model_predict_proba (input_data f);
      st_error [Lit "An error occurred: "; FStr e]], inr tt)
  /\ model_calls (output (assessment model names f)) = [input_data f]
  /\ filter is_failure_message (output (assessment model names f))
     = [failure_message e]
  /\ filter is_recommendation (output (assessment model names f)) = []
  /\ sentences_of (output (assessment model names f)) = []
  /\ (forall ev, In ev (output (assessment model names f)) ->
                 ev = model_predict_proba (input_data f)
                 \/ ev = failure_message e).
Proof.
  intros H. apply risk_score_when_predict_proba_raises in H.
  rewrite (assessment_when_predict_fails model names f e H).
  unfold output. simpl.
  repeat split; try reflexivity.
  intros ev [<-|[<-|[]]]; [left|right]; reflexivity.
Qed.

Lemma C8_prediction_failure_witness :
  @assessment stable_sort progress_in_unit
              (failing_model "shape mismatch") ["age"] scenario_form
  = ([model_predict_proba (input_data scenario_form);
      st_error [Lit "An error occurred: ";
                FStr (ModelFailure "shape mismatch")]], inr tt).
Proof.
  apply (C8_prediction_failure stable_sort progress_in_unit
           (failing_model "shape mismatch")
           ["age"] scenario_form (ModelFailure "shape mismatch") eq_refl).
Defined.

(** ** Key factors *)

Lemma flag_test (v : yes_no) : String.eqb (yes_no_label v) "Yes" = flag v.
Proof. destruct v; reflexivity. Qed.

Lemma first_match_covered (f : form) (name : string) :
  match first_match templates f name with
  | Some _ => true
  | None => false
  end = covered f name.
Proof.
  unfold covered. simpl. rewrite !andb_true_r.
  destruct (str_in "HbA1c_level" name); [reflexivity|].
  destruct (str_in "blood_glucose_level" name); [reflexivity|].
  destruct (str_in "bmi" name); [reflexivity|].
  destruct (str_in "age" name); [reflexivity|].
  destruct (str_in "hypertension" name), (flag (hypertension f));
    simpl; try reflexivity;
    destruct (str_in "heart_disease" name), (flag (heart_disease f));
    reflexivity.
Qed.

Lemma unmapped_not_covered (f : form) (name : string) :
  unmapped name = true -> covered f name = false.
Proof.
  unfold unmapped, covered. intros H. apply negb_true_iff in H.
  repeat (apply orb_false_iff in H as [H ?]).
  repeat match goal with
         | E : str_in _ name = false |- _ => rewrite E; clear E
         end.
  reflexivity.
Qed.

Lemma sentences_of_app (l1 l2 : list event) :
  sentences_of (l1 ++ l2) = (sentences_of l1 ++ sentences_of l2)%list.
Proof. unfold sentences_of. apply flat_map_app. Qed.

Lemma key_factor_lines_count (f : form) (rows : list row) :
  List.length (sentences_of (key_factor_lines f rows))
  = List.length (filter (covered f) (map feature rows)).
Proof.
  induction rows as [|r rows IH]; [reflexivity|].
  unfold key_factor_lines in *. simpl.
  rewrite sentences_of_app, length_app, IH, key_factor_output.
  rewrite <- (first_match_covered f (feature r)).
  destruct (first_match templates f (feature r)); reflexivity.
Qed.

Lemma filter_length_lt {A : Type} (test : A -> bool) (l : list A) (x : A) :
  In x l -> test x = false ->
  List.length (filter test l) < List.length l.
Proof.
  induction l as [|y l IH]; simpl; intros Hin Hx; [destruct Hin|].
  pose proof (filter_length_le test l) as Hle.
  destruct Hin as [->|Hin].
  - rewrite Hx. lia.
  - specialize (IH Hin Hx). destruct (test y); simpl; lia.
Qed.

Lemma first_match_hypertension (f : form) (name : string) :
  first_match templates f name = Some hypertension_sentence ->
  str_in "hypertension" name = true /\ hypertension f = Yes.
Proof.
  simpl. rewrite !andb_true_r.
  destruct (str_in "HbA1c_level" name); [discriminate|].
  destruct (str_in "blood_glucose_level" name); [discriminate|].
  destruct (str_in "bmi" name); [discriminate|].
  destruct (str_in "age" name); [discriminate|].
  destruct (str_in "hypertension" name), (hypertension f); simpl;
    try (intros _; split; reflexivity);
    destruct (str_in "heart_disease" name && flag (heart_disease f));
    discriminate.
Qed.

Lemma first_match_heart_disease (f : form) (name : string) :
  first_match templates f name = Some heart_disease_sentence ->
  str_in "heart_disease" name = true /\ heart_disease f = Yes.
Proof.
  simpl. rewrite !andb_true_r.
  destruct (str_in "HbA1c_level" name); [discriminate|].
  destruct (str_in "blood_glucose_level" name); [discriminate|].
  destruct (str_in "bmi" name); [discriminate|].
  destruct (str_in "age" name); [discriminate|].
  destruct (str_in "hypertension" name && flag (hypertension f));
    [discriminate|].
  destruct (str_in "heart_disease" name), (heart_disease f); simpl;
    try discriminate.
  intros _. split; reflexivity.
Qed.

Section WholeTrace.

Context {pandas : SortValues}.
Context {streamlit : Streamlit}.

(** Where an event of the trace of a submission comes from. *)
Lemma in_assessment model names f ev :
  In ev (output (assessment model names f)) ->
  ev = model_predict_proba (input_data f)
  \/ (exists e, ev = failure_message e)
  \/ (exists p b, risk_score model f = inr p /\ risk_level p = band_label b
                  /\ (In ev (results_head p) \/ ev = canned b))
  \/ In ev (output (explain model names f)).
Proof.
  destruct (risk_score model f) as [e|p] eqn:Hr.
  - rewrite (assessment_when_predict_fails model names f e Hr).
    unfold output. simpl. intros [<-|[<-|[]]]; [now left|].
    right; left. now exists e.
  - destruct (risk_level_is_band p) as [b Hb].
    destruct (progress_accepts p) eqn:Hacc; cycle 1.
    { rewrite (assessment_when_progress_refuses model names f p Hr Hacc).
      unfold output. cbn [fst]. intros [<-|H]; [now left|].
      apply in_app_or in H as [H|[<-|[]]].
      - right; right; left. exists p, b. split; [reflexivity|].
        split; [exact Hb|]. left.
        simpl in H. destruct H as [<-|[<-|[]]]; simpl; auto.
      - right; left. now exists (StreamlitAPIException p). }
    rewrite (assessment_when_predict_returns model names f p b Hr Hacc Hb).
    unfold output at 1. cbn [fst]. intros [<-|H]; [now left|].
    apply in_app_or in H as [H|H].
    { right; right; left. exists p, b. auto. }
    apply in_app_or in H as [[<-|[]]|H].
    { right; right; left. exists p, b. auto. }
    apply in_app_or in H as [H|H]; [now right; right; right|].
    destruct (outcome (explain model names f)) as [e|]; [|destruct H].
    destruct H as [<-|[]]. right; left. now exists e.
Qed.

(** A key-factor sentence of the trace was written by the loop. *)
Lemma sentence_in_assessment model names f (s : fstring) :
  List.length s <> 5 ->
  In (st_write s) (output (assessment model names f)) ->
  exists name, first_match templates f name = Some s.
Proof.
  intros Hs H.
  apply in_assessment in H as [H|[[e H]|[(p & b & _ & _ & [H|H])|H]]];
    try discriminate.
  - simpl in H.
    destruct H as [H|[H|[H|[H|[H|[]]]]]]; try discriminate.
    injection H as <-. now elim Hs.
  - destruct b; discriminate.
  - apply in_explain in H as [H|(df & r & s' & _ & Hm & H)];
      [discriminate|].
    injection H as ->. now exists (feature r).
Qed.

End WholeTrace.

(** ** The sentences of the attribution step *)

(** C4. The attribution step looks at the first three rows of the sorted
    frame only, so it never writes more than three sentences; and it writes
    exactly one sentence for each selected feature that is matchable
    (covered by a template whose condition holds), hence never more
    sentences than there are matchable features among the selected ones. *)
Theorem C4_at_most_top_k_sentences
  (pandas : SortValues) (model : Model) (names : list string) (f : form) :
  List.length (sentences_of (output (explain model names f))) <= 3
  /\ (forall imps df,
         feature_importances_ model = Some imps ->
         DataFrame names imps = inr df ->
         top_features df = firstn 3 (sort_values df)
         /\ List.length (top_features df) = Nat.min 3 (List.length df)
         /\ List.length (sentences_of (output (explain model names f)))
            = List.length (filter (covered f) (map feature (top_features df)))
         /\ List.length (sentences_of (output (explain model names f)))
            <= List.length (top_features df)).
Proof.
  assert (Hlen : forall df, List.length (top_features df) <= 3).
  { intros df. unfold top_features, head. apply firstn_le_length. }
  assert (Hcount : forall df,
    List.length (sentences_of (key_factors_title
                                 :: key_factor_lines f (top_features df)))
    = List.length (filter (covered f) (map feature (top_features df)))).
  { intros df. change (sentences_of (key_factors_title
                                 :: key_factor_lines f (top_features df)))
      with (sentences_of (key_factor_lines f (top_features df))).
    apply key_factor_lines_count. }
  assert (Hle : forall df,
    List.length (filter (covered f) (map feature (top_features df)))
    <= List.length (top_features df)).
  { intros df. etransitivity; [apply filter_length_le|].
    rewrite length_map. reflexivity. }
  split.
  - destruct (explain_cases model names f) as [E|[[e E]|[df E]]]; rewrite E.
    + simpl. lia.
    + simpl. lia.
    + unfold output. cbn [fst]. rewrite Hcount.
      specialize (Hle df). specialize (Hlen df). lia.
  - intros imps df Hi Hdf.
    rewrite (explain_with_frame model names f imps df Hi Hdf).
    unfold output. cbn [fst]. rewrite Hcount.
    split; [reflexivity|]. split; [|split; [reflexivity|apply Hle]].
    unfold top_features, head. rewrite length_firstn.
    rewrite <- (Permutation_length (sort_values_perm df)). reflexivity.
Qed.

Lemma C4_at_most_top_k_sentences_witness :
  List.length
    (sentences_of
       (output (@explain stable_sort
                  (stub_model c0_65 c0_35 (Some four_importances))
                  four_features scenario_form)))
  = List.length
      (filter (covered scenario_form)
         (map feature
            (@top_features stable_sort
               (rows_from 0 four_features four_importances)))).
Proof.
  apply (proj2 (C4_at_most_top_k_sentences stable_sort
                  (stub_model c0_65 c0_35 (Some four_importances))
                  four_features scenario_form)
           four_importances (rows_from 0 four_features four_importances)
           eq_refl eq_refl).
Defined.

(** C5. The hypertension and heart-disease sentences are written only when
    the answer on the form is Yes: a submission with hypertension = No
    (resp. heart disease = No) shows no hypertension (resp. heart-disease)
    sentence, however the feature ranks; and for a feature named exactly
    [hypertension] or [heart_disease] the slot is then empty. *)
Theorem C5_conditional_templates
  (pandas : SortValues) (streamlit : Streamlit) (model : Model)
  (names : list string) (f : form) :
  (hypertension f = No ->
   ~ In (st_write hypertension_sentence) (output (assessment model names f)))
  /\ (heart_disease f = No ->
      ~ In (st_write heart_disease_sentence)
           (output (assessment model names f)))
  /\ (forall name,
         hypertension f = No ->
         output (key_factor f name) <> [st_write hypertension_sentence])
  /\ (forall name,
         heart_disease f = No ->
         output (key_factor f name) <> [st_write heart_disease_sentence])
  /\ (hypertension f = No -> key_factor f "hypertension" = ret tt)
  /\ (heart_disease f = No -> key_factor f "heart_disease" = ret tt).
Proof.
  split; [|split; [|split; [|split; [|split]]]].
  - intros Hno Hin.
    apply sentence_in_assessment in Hin as [name Hm]; [|discriminate].
    apply first_match_hypertension in Hm as [_ Hm]. congruence.
  - intros Hno Hin.
    apply sentence_in_assessment in Hin as [name Hm]; [|discriminate].
    apply first_match_heart_disease in Hm as [_ Hm]. congruence.
  - intros name Hno Hout. rewrite key_factor_output in Hout.
    destruct (first_match templates f name) as [s|] eqn:E; [|discriminate].
    injection Hout as ->.
    apply first_match_hypertension in E as [_ E]. congruence.
  - intros name Hno Hout. rewrite key_factor_output in Hout.
    destruct (first_match templates f name) as [s|] eqn:E; [|discriminate].
    injection Hout as ->.
    apply first_match_heart_disease in E as [_ E]. congruence.
  - intros Hno. unfold key_factor. rewrite Hno. reflexivity.
  - intros Hno. unfold key_factor. rewrite Hno.
    destruct (hypertension f); reflexivity.
Qed.

Lemma C5_conditional_templates_witness :
  hypertension scenario_form = No
  /\ ~ In (st_write hypertension_sentence)
          (output (@assessment stable_sort progress_in_unit
                     (stub_model c0_65 c0_35 (Some four_importances))
                     four_features scenario_form))
  /\ key_factor scenario_form "hypertension" = ret tt.
Proof.
  split; [reflexivity|]. split.
  - apply (proj1 (C5_conditional_templates stable_sort progress_in_unit
                    (stub_model c0_65 c0_35 (Some four_importances))
                    four_features scenario_form)).
    reflexivity.
  - apply (proj1 (proj2 (proj2 (proj2 (proj2
             (C5_conditional_templates stable_sort progress_in_unit
                (stub_model c0_65 c0_35 (Some four_importances))
                four_features scenario_form)))))).
    reflexivity.
Defined.

(** C6. A feature whose name holds none of the six substrings, as [gender]
    and [smoking_history] (also under the names an encoder gives their
    columns), gets no sentence and raises nothing; when such a feature is
    among the selected ones, the section is written without failure and
    holds fewer than three sentences. *)
Theorem C6_unmapped_feature_is_skipped
  (pandas : SortValues) (model : Model) (names : list string) (f : form) :
  (forall name, unmapped name = true -> key_factor f name = ret tt)
  /\ unmapped "gender" = true
  /\ unmapped "smoking_history" = true
  /\ unmapped "cat__gender_Female" = true
  /\ unmapped "cat__smoking_history_never" = true
  /\ (forall imps df r,
         feature_importances_ model = Some imps ->
         DataFrame names imps = inr df ->
         In r (top_features df) ->
         unmapped (feature r) = true ->
         outcome (explain model names f) = inr tt
         /\ List.length (sentences_of (output (explain model names f))) < 3).
Proof.
  split; [|split; [|split; [|split; [|split]]]]; try reflexivity.
  - intros name H. rewrite key_factor_spec.
    pose proof (first_match_covered f name) as Hc.
    rewrite (unmapped_not_covered f name H) in Hc.
    destruct (first_match templates f name); [discriminate|reflexivity].
  - intros imps df r Hi Hdf Hr Hu.
    rewrite (explain_with_frame model names f imps df Hi Hdf).
    unfold outcome, output. cbn [fst snd]. split; [reflexivity|].
    change (sentences_of (key_factors_title
                            :: key_factor_lines f (top_features df)))
      with (sentences_of (key_factor_lines f (top_features df))).
    rewrite key_factor_lines_count.
    apply Nat.lt_le_trans with (List.length (map feature (top_features df))).
    + apply filter_length_lt with (feature r).
      * now apply in_map.
      * now apply unmapped_not_covered.
    + rewrite length_map. unfold top_features, head. apply firstn_le_length.
Qed.

Lemma C6_unmapped_feature_is_skipped_witness :
  unmapped "gender" = true
  /\ key_factor scenario_form "gender" = ret tt
  /\ List.length
       (sentences_of
          (output (@explain stable_sort
                     (stub_model c0_65 c0_35 (Some four_importances))
                     four_features scenario_form))) < 3.
Proof.
  split; [reflexivity|]. split.
  - apply (proj1 (C6_unmapped_feature_is_skipped stable_sort
                    (stub_model c0_65 c0_35 (Some four_importances))
                    four_features scenario_form)).
    reflexivity.
  - apply (proj2 (proj2 (proj2 (proj2 (proj2
             (C6_unmapped_feature_is_skipped stable_sort
                (stub_model c0_65 c0_35 (Some four_importances))
                four_features scenario_form)))))
             four_importances (rows_from 0 four_features four_importances)
             {| index := 1; feature := "gender"; importance := c0_25 |}
             eq_refl eq_refl).
    + right. left. reflexivity.
    + reflexivity.
Defined.

(** C10. For each selected feature at most one sentence is written: the
    sentence of the first template, in the order HbA1c_level,
    blood_glucose_level, bmi, age, hypertension, heart_disease, whose
    substring occurs in the name (case-sensitively) and whose condition
    holds.  A name that matches several templates gets the sentence of the
    first of them only. *)
Theorem C10_first_matching_template (f : form) (name : string) :
  key_factor f name
  = match first_match templates f name with
    | Some s => emit (st_write s)
    | None => ret tt
    end
  /\ map needle templates
     = ["HbA1c_level"; "blood_glucose_level"; "bmi"; "age"; "hypertension";
        "heart_disease"]
  /\ List.length (output (key_factor f name)) <= 1
  /\ (forall rows,
         List.length (key_factor_lines f rows) <= List.length rows)
  /\ (str_in "HbA1c_level" name = true ->
      key_factor f name = emit (st_write (hba1c_sentence f)))
  /\ (str_in "HbA1c_level" name = false ->
      str_in "blood_glucose_level" name = true ->
      key_factor f name = emit (st_write (glucose_sentence f)))
  /\ (str_in "HbA1c_level" name = false ->
      str_in "blood_glucose_level" name = false ->
      str_in "bmi" name = true ->
      key_factor f name = emit (st_write (bmi_sentence f)))
  /\ (str_in "HbA1c_level" name = false ->
      str_in "blood_glucose_level" name = false ->
      str_in "bmi" name = false ->
      str_in "age" name = true ->
      key_factor f name = emit (st_write (age_sentence f)))
  /\ (str_in "HbA1c_level" name = false ->
      str_in "blood_glucose_level" name = false ->
      str_in "bmi" name = false ->
      str_in "age" name = false ->
      str_in "hypertension" name = true ->
      hypertension f = Yes ->
      key_factor f name = emit (st_write hypertension_sentence))
  /\ (str_in "HbA1c_level" name = false ->
      str_in "blood_glucose_level" name = false ->
      str_in "bmi" name = false ->
      str_in "age" name = false ->
      str_in "hypertension" name = false \/ hypertension f = No ->
      str_in "heart_disease" name = true ->
      heart_disease f = Yes ->
      key_factor f name = emit (st_write heart_disease_sentence))
  /\ key_factor f "HbA1c_level_by_age_and_bmi"
     = emit (st_write (hba1c_sentence f))
  /\ key_factor f "bmi_age" = emit (st_write (bmi_sentence f))
  /\ key_factor f "hba1c_level" = ret tt
  /\ key_factor f "BMI" = ret tt.
Proof.
  split; [apply key_factor_spec|]. split; [reflexivity|].
  split.
  { rewrite key_factor_output.
    destruct (first_match templates f name); simpl; lia. }
  split.
  { intros rows. induction rows as [|r rows IH]; [simpl; lia|].
    unfold key_factor_lines in *. simpl. rewrite length_app.
    rewrite key_factor_output.
    destruct (first_match templates f (feature r)); simpl; lia. }
  unfold key_factor.
  repeat split; try reflexivity; intros;
    repeat match goal with
           | E : str_in _ name = _ |- _ => rewrite E; clear E
           | E : hypertension f = _ |- _ => rewrite E; clear E
           | E : heart_disease f = _ |- _ => rewrite E; clear E
           end; try reflexivity.
  match goal with
  | H : _ \/ _ |- _ => destruct H as [E|E]; rewrite E; try reflexivity
  end.
  destruct (str_in "hypertension" name); reflexivity.
Qed.

Lemma C10_first_matching_template_witness :
  str_in "HbA1c_level" "num__HbA1c_level" = true
  /\ key_factor scenario_form "num__HbA1c_level"
     = emit (st_write (hba1c_sentence scenario_form)).
Proof.
  split; [reflexivity|].
  apply (proj1 (proj2 (proj2 (proj2 (proj2
           (C10_first_matching_template scenario_form
                                        "num__HbA1c_level")))))).
  reflexivity.
Defined.

(** * Further properties of the code *)

(** ** The row given to the model (lines 49-58) *)

(** X1. The row built from the form loses nothing: two forms that give the
    same row are the same form.  The two Yes/No answers are encoded as 1
    and 0, and the smoking history is one of the four lower-case words. *)
Theorem input_data_keeps_the_form (f : form) :
  (forall f', input_data f = input_data f' -> f = f')
  /\ (col_hypertension (input_data f) = 1%Z <-> hypertension f = Yes)
  /\ (col_hypertension (input_data f) = 0%Z <-> hypertension f = No)
  /\ (col_heart_disease (input_data f) = 1%Z <-> heart_disease f = Yes)
  /\ (col_heart_disease (input_data f) = 0%Z <-> heart_disease f = No)
  /\ In (col_smoking_history (input_data f))
        ["never"; "former"; "current"; "unknown"]
  /\ lower (col_smoking_history (input_data f))
     = col_smoking_history (input_data f).
Proof.
  split.
  - intros f' H. destruct f as [g a h hd s b hb bg].
    destruct f' as [g' a' h' hd' s' b' hb' bg'].
    unfold input_data in H. simpl in H.
    injection H as Hg Ha Hh Hhd Hs Hb Hhb Hbg. subst.
    assert (g = g') as -> by (destruct g, g'; simpl in Hg; congruence).
    assert (h = h') as -> by (destruct h, h'; simpl in Hh; congruence).
    assert (hd = hd') as -> by (destruct hd, hd'; simpl in Hhd; congruence).
    assert (s = s') as ->
      by (destruct s, s'; vm_compute in Hs; congruence).
    reflexivity.
  - destruct f as [g a h hd s b hb bg]. simpl.
    repeat split; try (destruct h; simpl; congruence);
      try (destruct hd; simpl; congruence);
      try (destruct h; simpl; intros; (reflexivity || discriminate));
      try (destruct hd; simpl; intros; (reflexivity || discriminate)).
    + destruct s; vm_compute; tauto.
    + destruct s; reflexivity.
Qed.

Lemma input_data_keeps_the_form_witness :
  col_hypertension (input_data scenario_form) = 0%Z
  /\ hypertension scenario_form = No.
Proof.
  split; [reflexivity|].
  apply (proj1 (proj1 (proj2 (proj2 (input_data_keeps_the_form
                                        scenario_form))))).
  reflexivity.
Defined.

(** ** The [try] and its [except] (lines 61-142) *)

Lemma model_calls_app (l1 l2 : list event) :
  model_calls (l1 ++ l2) = (model_calls l1 ++ model_calls l2)%list.
Proof. unfold model_calls. apply flat_map_app. Qed.

Lemma flat_map_none {A B : Type} (g : A -> list B) (l : list A) :
  (forall x, In x l -> g x = []) -> flat_map g l = [].
Proof.
  induction l as [|x l IH]; simpl; intros H; [reflexivity|].
  rewrite (H x (or_introl eq_refl)). apply IH. intros y Hy. apply H. now right.
Qed.

Section TryExcept.

Context {pandas : SortValues}.
Context {streamlit : Streamlit}.

Lemma assessment_body_trace model names f :
  match risk_score model f with
  | inl e =>
      assessment_body model names f
      = ([model_predict_proba (input_data f)], inl e)
  | inr p =>
      if progress_accepts p then
        exists b,
          risk_level p = band_label b
          /\ assessment_body model names f
             = ((model_predict_proba (input_data f)
                 :: results_head p ++ [canned b]
                    ++ output (explain model names f))%list,
                outcome (explain model names f))
      else
        assessment_body model names f
        = (model_predict_proba (input_data f) :: firstn 2 (results_head p),
           inl (StreamlitAPIException p))
  end.
Proof.
  unfold assessment_body. rewrite predict_trace.
  destruct (risk_score model f) as [e|p]; [reflexivity|].
  destruct (progress_accepts p) eqn:Hacc.
  - destruct (risk_level_is_band p) as [b Hb]. exists b. split; [exact Hb|].
    unfold bind. rewrite (show_results_trace p b Hacc Hb).
    destruct (explain model names f) as [out r]. unfold output, outcome.
    reflexivity.
  - unfold bind. rewrite (show_results_refused p Hacc). reflexivity.
Qed.

Lemma explain_makes_no_call model names f :
  model_calls (output (explain model names f)) = [].
Proof.
  apply flat_map_none. intros ev Hev.
  apply in_explain in Hev as [->|(df & r & s & _ & _ & ->)]; reflexivity.
Qed.

Lemma explain_writes_no_failure model names f :
  filter is_failure_message (output (explain model names f)) = [].
Proof.
  apply filter_none. intros ev Hev.
  apply in_explain in Hev as [->|(df & r & s & _ & _ & ->)]; reflexivity.
Qed.

Lemma results_make_no_call (p : spec_float) (b : band) :
  model_calls (results_head p ++ [canned b]) = []
  /\ filter is_failure_message (results_head p ++ [canned b]) = [].
Proof. destruct b; split; reflexivity. Qed.

(** X2. A rerun of the script calls the model exactly once when the form
    was submitted, with the row built from the form, and not at all
    otherwise; this holds whether the assessment succeeds or fails. *)
Theorem model_called_once_per_submission
  (submitted : bool) (model : Model) (names : list string) (f : form) :
  model_calls (output (on_rerun submitted model names f))
  = if submitted then [input_data f] else [].
Proof.
  destruct submitted; [|reflexivity]. unfold on_rerun.
  pose proof (assessment_body_trace model names f) as Hb.
  unfold assessment.
  destruct (risk_score model f) as [e|p].
  - rewrite Hb. reflexivity.
  - destruct (progress_accepts p); [|rewrite Hb; reflexivity].
    destruct Hb as (b & _ & ->). unfold try_except, outcome.
    pose proof (explain_makes_no_call model names f) as He.
    pose proof (proj1 (results_make_no_call p b)) as Hr.
    assert (Hall : model_calls
                     (model_predict_proba (input_data f)
                      :: results_head p ++ [canned b]
                         ++ output (explain model names f))
                   = [input_data f]).
    { change (model_calls (model_predict_proba (input_data f) :: ?l))
        with (input_data f :: model_calls l).
      rewrite app_assoc, model_calls_app, Hr, He. reflexivity. }
    destruct (snd (explain model names f)) as [e|[]]; unfold output;
      cbn [fst emit].
    + rewrite model_calls_app. unfold output in Hall. rewrite Hall.
      reflexivity.
    + exact Hall.
Qed.

(** X3. No exception leaves the assessment.  When the [try] body raises,
    the trace is what the body had written followed by one message of
    failure, which is the last event and the only such message; when the
    body returns, the trace is the body's and holds no message of
    failure. *)
Theorem exceptions_end_in_one_message
  (model : Model) (names : list string) (f : form) :
  outcome (assessment model names f) = inr tt
  /\ match outcome (assessment_body model names f) with
     | inl e =>
         output (assessment model names f)
         = (output (assessment_body model names f) ++ [failure_message e])%list
         /\ filter is_failure_message (output (assessment model names f))
            = [failure_message e]
     | inr _ =>
         output (assessment model names f)
         = output (assessment_body model names f)
         /\ filter is_failure_message (output (assessment model names f)) = []
     end.
Proof.
  assert (Hbody : filter is_failure_message
                    (output (assessment_body model names f)) = []).
  { pose proof (assessment_body_trace model names f) as Hb.
    destruct (risk_score model f) as [e|p].
    - rewrite Hb. reflexivity.
    - destruct (progress_accepts p); [|rewrite Hb; reflexivity].
      destruct Hb as (b & _ & ->). unfold output at 1. cbn [fst].
      change (filter is_failure_message
                (model_predict_proba (input_data f) :: ?l))
        with (filter is_failure_message l).
      rewrite app_assoc, filter_app.
      rewrite (proj2 (results_make_no_call p b)).
      rewrite explain_writes_no_failure. reflexivity. }
  unfold assessment, try_except, emit, outcome, output in *.
  destruct (assessment_body model names f) as [out [e|[]]]; cbn [fst snd] in *.
  - split; [reflexivity|]. split; [reflexivity|].
    rewrite filter_app, Hbody. reflexivity.
  - split; [reflexivity|]. split; [reflexivity|exact Hbody].
Qed.

End TryExcept.

(** ** What the prediction must look like (lines 62-63) *)

(** X4. The probability is the entry of the prediction at row 0, column 1,
    whatever the other entries are.  When the prediction has no row, or its
    first row has fewer than two entries, indexing raises: the trace is
    the call of the model and the message of failure, and nothing of the
    results is shown. *)
Theorem probability_is_row0_column1
  (pandas : SortValues) (streamlit : Streamlit) (model : Model)
  (names : list string) (f : form) (prediction : list (list spec_float)) :
  predict_proba model (input_data f) = inr prediction ->
  (forall q p rest others,
      prediction = (q :: p :: rest) :: others -> risk_score model f = inr p)
  /\ ((forall first, nth_error prediction 0 = Some first ->
                     List.length first <= 1) ->
      assessment model names f
      = ([model_predict_proba (input_data f);
          failure_message
            match prediction with
            | [] => IndexError 0 0
            | first :: _ => IndexError 1 (List.length first)
            end], inr tt)).
Proof.
  intros Hp.
  assert (Hr : risk_score model f
               = match getitem prediction 0 with
                 | inl e => inl e
                 | inr first => getitem first 1
                 end).
  { unfold risk_score, outcome, predict, call_predict_proba, bind, lift.
    rewrite Hp. destruct (getitem prediction 0) as [e|first]; [reflexivity|].
    destruct (getitem first 1); reflexivity. }
  split.
  - intros q p rest others ->. rewrite Hr. reflexivity.
  - intros Hshort. apply assessment_when_predict_fails. rewrite Hr.
    destruct prediction as [|first others]; [reflexivity|].
    specialize (Hshort first eq_refl). unfold getitem. simpl.
    destruct first as [|q [|p rest]]; simpl in *; try reflexivity. lia.
Qed.

Lemma probability_is_row0_column1_witness :
  risk_score (stub_model c0_65 c0_35 None) scenario_form = inr c0_35
  /\ @assessment stable_sort progress_in_unit
       {| predict_proba := fun _ => inr [[c0_35]];
          feature_importances_ := None |} [] scenario_form
     = ([model_predict_proba (input_data scenario_form);
         failure_message (IndexError 1 1)], inr tt).
Proof.
  split.
  - apply (proj1 (probability_is_row0_column1 stable_sort progress_in_unit
                    (stub_model c0_65 c0_35 None) [] scenario_form
                    [[c0_65; c0_35]] eq_refl) c0_65 c0_35 [] []).
    reflexivity.
  - apply (proj2 (probability_is_row0_column1 stable_sort progress_in_unit
                    {| predict_proba := fun _ => inr [[c0_35]];
                       feature_importances_ := None |} [] scenario_form
                    [[c0_35]] eq_refl)).
    intros first Hf. injection Hf as <-. simpl. lia.
Defined.

(** ** The key-factors section (lines 115-139) *)

Section KeyFactorsSection.

Context {pandas : SortValues}.
Context {streamlit : Streamlit}.

(** X5. When the classifier has importances and the frame can be built, a
    submission whose prediction succeeds, with a probability in [0,1],
    shows, in this order, the results,
    the recommendation block of the band, the title of the key-factors
    section and the sentences of the selected features, and it ends
    without a message of failure.  The title is written even when no
    selected feature is matchable; the section under it is then empty. *)
Theorem trace_of_a_full_assessment
  (model : Model) (names : list string) (f : form) (p : spec_float)
  (imps : list spec_float) (df : list row) :
  F.in_unit p = true ->
  risk_score model f = inr p ->
  feature_importances_ model = Some imps ->
  DataFrame names imps = inr df ->
  exists b,
    risk_level p = band_label b
    /\ assessment model names f
       = ((model_predict_proba (input_data f)
           :: results_head p
              ++ [canned b; key_factors_title]
              ++ key_factor_lines f (top_features df))%list, inr tt)
    /\ outcome (assessment_body model names f) = inr tt
    /\ ((forall r, In r (top_features df) -> covered f (feature r) = false) ->
        key_factor_lines f (top_features df) = []).
Proof.
  intros Hp Hr Hi Hdf. destruct (risk_level_is_band p) as [b Hb]. exists b.
  split; [exact Hb|].
  pose proof (progress_accepts_unit p Hp) as Hacc.
  pose proof (explain_with_frame model names f imps df Hi Hdf) as He.
  split; [|split].
  - rewrite (assessment_when_predict_returns model names f p b Hr Hacc Hb).
    rewrite He. unfold output, outcome. cbn [fst snd].
    rewrite app_nil_r. reflexivity.
  - pose proof (assessment_body_trace model names f) as Hbody.
    rewrite Hr, Hacc in Hbody. destruct Hbody as (b' & _ & ->).
    unfold outcome. cbn [snd]. rewrite He. reflexivity.
  - intros Hnone. apply flat_map_none. intros r Hin.
    rewrite key_factor_output.
    pose proof (first_match_covered f (feature r)) as Hc.
    rewrite (Hnone r Hin) in Hc.
    destruct (first_match templates f (feature r)); [discriminate|reflexivity].
Qed.

(** X6. When the list of feature names and the importances differ in
    length, the frame cannot be built.  For a probability in [0,1] this
    happens after the results were written: the page keeps the band, the
    score, the recommendation
    block and the title of the key-factors section, and the message of
    failure comes under them, with no key-factor sentence. *)
Theorem frame_failure_comes_after_results
  (model : Model) (names : list string) (f : form) (p : spec_float)
  (imps : list spec_float) :
  F.in_unit p = true ->
  risk_score model f = inr p ->
  feature_importances_ model = Some imps ->
  List.length names <> List.length imps ->
  exists b,
    risk_level p = band_label b
    /\ assessment model names f
       = ((model_predict_proba (input_data f)
           :: results_head p
              ++ [canned b; key_factors_title;
                  failure_message
                    (ValueError_lengths (List.length names)
                                        (List.length imps))])%list, inr tt)
    /\ filter is_recommendation (output (assessment model names f))
       = [canned b].
Proof.
  intros Hp Hr Hi Hlen. destruct (risk_level_is_band p) as [b Hb]. exists b.
  split; [exact Hb|].
  pose proof (progress_accepts_unit p Hp) as Hacc.
  assert (Hdf : DataFrame names imps
                = inl (ValueError_lengths (List.length names)
                                          (List.length imps))).
  { unfold DataFrame. apply Nat.eqb_neq in Hlen. rewrite Hlen. reflexivity. }
  pose proof (explain_without_frame model names f imps _ Hi Hdf) as He.
  assert (Ht : assessment model names f
       = ((model_predict_proba (input_data f)
           :: results_head p
              ++ [canned b; key_factors_title;
                  failure_message
                    (ValueError_lengths (List.length names)
                                        (List.length imps))])%list, inr tt)).
  { rewrite (assessment_when_predict_returns model names f p b Hr Hacc Hb).
    rewrite He. reflexivity. }
  split; [exact Ht|]. rewrite Ht. destruct b; reflexivity.
Qed.

End KeyFactorsSection.

Lemma trace_of_a_full_assessment_witness :
  @assessment stable_sort progress_in_unit
              (stub_model c0_65 c0_35 (Some four_importances))
              four_features scenario_form
  = ((model_predict_proba (input_data scenario_form)
      :: results_head c0_35
         ++ [canned Moderate; key_factors_title]
         ++ key_factor_lines scenario_form
              (@top_features stable_sort
                 (rows_from 0 four_features four_importances)))%list,
     inr tt).
Proof.
  destruct (@trace_of_a_full_assessment stable_sort progress_in_unit
              (stub_model c0_65 c0_35 (Some four_importances))
              four_features scenario_form c0_35 four_importances
              (rows_from 0 four_features four_importances)
              eq_refl eq_refl eq_refl eq_refl) as (b & Hb & H & _).
  assert (b = Moderate) as -> by (apply band_label_inj; symmetry; exact Hb).
  exact H.
Defined.

Lemma frame_failure_comes_after_results_witness :
  @assessment stable_sort progress_in_unit
              (stub_model c0_65 c0_35 (Some four_importances))
              ["HbA1c_level"; "age"] scenario_form
  = ((model_predict_proba (input_data scenario_form)
      :: results_head c0_35
         ++ [canned Moderate; key_factors_title;
             failure_message (ValueError_lengths 2 4)])%list, inr tt).
Proof.
  destruct (@frame_failure_comes_after_results stable_sort progress_in_unit
              (stub_model c0_65 c0_35 (Some four_importances))
              ["HbA1c_level"; "age"] scenario_form c0_35 four_importances
              eq_refl eq_refl eq_refl) as (b & Hb & H & _).
  - simpl. lia.
  - assert (b = Moderate) as ->
      by (apply band_label_inj; symmetry; exact Hb).
    exact H.
Defined.

(** ** Substring matching (lines 128-138) *)

Lemma prefix_spec (needle hay : string) :
  String.prefix needle hay = true <-> exists post, hay = needle ++ post.
Proof.
  revert hay. induction needle as [|a needle IH]; intros hay; simpl.
  - split; [intros _; now exists hay|intros _; destruct hay; reflexivity].
  - destruct hay as [|b hay].
    + split; [discriminate|]. intros [post H]. discriminate.
    + simpl. destruct (ascii_dec a b) as [->|Hab].
      * rewrite IH. split; intros [post H]; exists post.
        -- now rewrite H.
        -- now injection H.
      * split; [discriminate|]. intros [post H]. injection H as H1 H2.
        now elim Hab.
Qed.

Lemma str_in_eq (needle hay : string) :
  str_in needle hay
  = if String.prefix needle hay then true
    else match hay with
         | EmptyString => false
         | String _ rest => str_in needle rest
         end.
Proof. destruct hay; reflexivity. Qed.

Lemma str_in_spec (needle hay : string) :
  str_in needle hay = true
  <-> exists pre post, hay = pre ++ needle ++ post.
Proof.
  split.
  - induction hay as [|c hay IH]; rewrite str_in_eq;
      destruct (String.prefix needle _) eqn:E.
    + intros _. apply prefix_spec in E as [post E]. now exists "", post.
    + intros H. discriminate H.
    + intros _. apply prefix_spec in E as [post E]. now exists "", post.
    + intros H. destruct (IH H) as (pre & post & ->).
      now exists (String c pre), post.
  - intros (pre & post & ->). induction pre as [|c pre IH];
      rewrite str_in_eq.
    + assert (E : String.prefix needle (needle ++ post) = true)
        by (apply prefix_spec; now exists post).
      simpl. now rewrite E.
    + cbn [append]. rewrite IH.
      destruct (String.prefix needle (String c (pre ++ needle ++ post)));
        reflexivity.
Qed.

(** X7. The test [needle in feature_name] holds exactly when the name is
    some text, then the needle, then some text.  So a feature whose name
    holds [HbA1c_level] anywhere, as under the prefix an encoder puts
    before a column name, gets the HbA1c sentence whatever else the name
    holds; and a name that holds none of the needles of a template cannot
    get its sentence. *)
Theorem substring_matching (f : form) (sub text : string) :
  (str_in sub text = true <-> exists pre post, text = pre ++ sub ++ post)
  /\ (forall pre post,
         key_factor f (pre ++ "HbA1c_level" ++ post)
         = emit (st_write (hba1c_sentence f)))
  /\ (forall name s,
         output (key_factor f name) = [st_write s] ->
         exists t pre post,
           In t templates /\ s = sentence t f
           /\ name = pre ++ needle t ++ post).
Proof.
  split; [apply str_in_spec|]. split.
  - intros pre post. unfold key_factor.
    assert (E : str_in "HbA1c_level" (pre ++ "HbA1c_level" ++ post) = true)
      by (apply str_in_spec; now exists pre, post).
    rewrite E. reflexivity.
  - intros name s. rewrite key_factor_output.
    assert (Hgen : forall ts,
      first_match ts f name = Some s ->
      exists t pre post,
        In t ts /\ s = sentence t f /\ name = pre ++ needle t ++ post).
    { induction ts as [|t ts IH]; simpl; [discriminate|].
      destruct (str_in (needle t) name) eqn:E; simpl.
      - destruct (applies t f).
        + intros H. injection H as <-.
          apply str_in_spec in E as (pre & post & E).
          exists t, pre, post. auto.
        + intros H. destruct (IH H) as (t' & pre & post & Hin & Hs & Hn).
          exists t', pre, post. auto.
      - intros H. destruct (IH H) as (t' & pre & post & Hin & Hs & Hn).
        exists t', pre, post. auto. }
    destruct (first_match templates f name) as [s'|] eqn:E; [|discriminate].
    intros H. injection H as ->. now apply Hgen.
Qed.

Lemma substring_matching_witness :
  str_in "age" "num__age" = true.
Proof.
  apply (proj1 (substring_matching scenario_form "age" "num__age")).
  exists "num__", "". reflexivity.
Defined.

(** ** Probabilities out of range (lines 69-77) *)

Lemma SFltb_leb (a b : spec_float) : SFltb a b = true -> SFleb a b = true.
Proof.
  unfold SFltb, SFleb. destruct (SFcompare a b) as [[ | | ]|]; congruence.
Qed.

(** X8. The thresholds are applied to whatever number the model returns;
    there is no check of the range.  A negative number is Low, a number
    above 1 is High, and NaN, for which both comparisons are false, is
    High. *)
Theorem no_range_check (p : spec_float) :
  (SFltb p F.zero = true -> risk_level p = "Low Risk")
  /\ (SFltb F.one p = true -> risk_level p = "High Risk")
  /\ (F.is_nan p = true -> risk_level p = "High Risk").
Proof.
  unfold risk_level, risk_level_of. split; [|split].
  - intros H.
    assert (E : SFltb p F.c0_2 = true).
    { apply SFleb_ltb_trans with F.zero; [now apply SFltb_leb|reflexivity]. }
    rewrite E. reflexivity.
  - intros H. apply SFltb_leb in H.
    destruct (SFltb p F.c0_2) eqn:E2.
    { pose proof (SFleb_ltb_trans _ _ _ H E2) as Hx. vm_compute in Hx.
      discriminate. }
    destruct (SFltb p F.c0_5) eqn:E5.
    { pose proof (SFleb_ltb_trans _ _ _ H E5) as Hx. vm_compute in Hx.
      discriminate. }
    reflexivity.
  - destruct p; try discriminate. reflexivity.
Qed.

Lemma no_range_check_witness :
  risk_level (S754_finite true 4503599627370496 (-53)) = "Low Risk"
  /\ risk_level (S754_infinity false) = "High Risk"
  /\ risk_level S754_nan = "High Risk".
Proof.
  split; [|split].
  - apply (proj1 (no_range_check (S754_finite true 4503599627370496 (-53)))).
    reflexivity.
  - apply (proj1 (proj2 (no_range_check (S754_infinity false)))).
    reflexivity.
  - apply (proj2 (proj2 (no_range_check S754_nan))). reflexivity.
Defined.

(** ** The frame and the selection (lines 119-121) *)

Lemma in_rows_from (i : nat) (names : list string) (imps : list spec_float)
  (r : row) :
  In r (rows_from i names imps) ->
  i <= index r
  /\ nth_error names (index r - i) = Some (feature r)
  /\ nth_error imps (index r - i) = Some (importance r).
Proof.
  revert i imps. induction names as [|n names IH]; intros i imps; simpl.
  - intros [].
  - destruct imps as [|w imps]; [intros []|].
    intros [<-|H]; simpl.
    + rewrite Nat.sub_diag. auto.
    + destruct (IH (S i) imps H) as (Hle & Hn & Hw).
      replace (index r - i) with (S (index r - S i)) by lia.
      simpl. split; [lia|auto].
Qed.

Lemma rows_from_NoDup (i : nat) (names : list string)
  (imps : list spec_float) :
  NoDup (map index (rows_from i names imps)).
Proof.
  revert i imps. induction names as [|n names IH]; intros i imps; simpl.
  - constructor.
  - destruct imps as [|w imps]; simpl; constructor.
    + intros Hin. apply in_map_iff in Hin as (r & Hr & Hin).
      apply in_rows_from in Hin as [Hle _]. lia.
    + apply IH.
Qed.

Lemma rows_from_length (i : nat) (names : list string)
  (imps : list spec_float) :
  List.length names = List.length imps ->
  List.length (rows_from i names imps) = List.length names.
Proof.
  revert i imps. induction names as [|n names IH]; intros i [|w imps];
    simpl; try discriminate; [reflexivity|].
  intros H. rewrite IH; [reflexivity|lia].
Qed.

Lemma DataFrame_rows (names : list string) (imps : list spec_float)
  (df : list row) :
  DataFrame names imps = inr df ->
  df = rows_from 0 names imps /\ List.length names = List.length imps.
Proof.
  unfold DataFrame.
  destruct (Nat.eqb (List.length names) (List.length imps)) eqn:E;
    [|discriminate].
  intros H. injection H as <-. apply Nat.eqb_eq in E. auto.
Qed.

Lemma StronglySorted_app_cross {A : Type} (R : A -> A -> Prop)
  (l1 l2 : list A) :
  StronglySorted R (l1 ++ l2) ->
  forall x y, In x l1 -> In y l2 -> R x y.
Proof.
  induction l1 as [|a l1 IH]; simpl; intros Hs x y Hx Hy; [destruct Hx|].
  apply StronglySorted_inv in Hs as [Hs Ha].
  destruct Hx as [<-|Hx].
  - rewrite Forall_forall in Ha. apply Ha. apply in_or_app. now right.
  - now apply IH.
Qed.

Section Selection.

Context {pandas : SortValues}.
Context {streamlit : Streamlit}.

Lemma in_top_features (df : list row) (r : row) :
  In r (top_features df) -> In r df.
Proof.
  unfold top_features, head. intros H.
  apply (Permutation_in r (Permutation_sym (sort_values_perm df))).
  rewrite <- (firstn_skipn 3 (sort_values df)). apply in_or_app. now left.
Qed.

(** X9. Each selected row is a row of the frame as it was built: its
    feature name and its importance are the entries of [feature_names] and
    of the importances at one and the same position.  No position is
    selected twice. *)
Theorem selected_rows_pair_name_and_weight
  (names : list string) (imps : list spec_float) (df : list row) :
  DataFrame names imps = inr df ->
  (forall r, In r (top_features df) ->
             nth_error names (index r) = Some (feature r)
             /\ nth_error imps (index r) = Some (importance r))
  /\ NoDup (map index (top_features df)).
Proof.
  intros Hdf. apply DataFrame_rows in Hdf as [-> Hlen]. split.
  - intros r Hr. apply in_top_features in Hr.
    apply in_rows_from in Hr as (_ & Hn & Hw).
    rewrite Nat.sub_0_r in Hn, Hw. auto.
  - pose proof (rows_from_NoDup 0 names imps) as Hnd.
    apply (Permutation_NoDup
             (Permutation_map index
                (sort_values_perm (rows_from 0 names imps)))) in Hnd.
    rewrite <- (firstn_skipn 3 (sort_values (rows_from 0 names imps))) in Hnd.
    rewrite map_app in Hnd. apply NoDup_app_remove_r in Hnd. exact Hnd.
Qed.

(** X10. The selection is the top of the ranking: every row of the frame
    is either selected or left out, and no row left out has an importance
    strictly greater than that of a selected row. *)
Theorem no_better_feature_is_left_out (df : list row) :
  Permutation df (top_features df ++ left_out df)
  /\ (forall r r', In r (top_features df) -> In r' (left_out df) ->
                   SFltb (importance r) (importance r') = false)
  /\ List.length (left_out df) = List.length df - 3.
Proof.
  unfold top_features, head, left_out. split; [|split].
  - rewrite firstn_skipn. apply sort_values_perm.
  - intros r r' Hr Hr'.
    apply (StronglySorted_app_cross not_below
             (firstn 3 (sort_values df)) (skipn 3 (sort_values df)));
      [|assumption|assumption].
    rewrite firstn_skipn. apply sort_values_desc.
  - rewrite length_skipn.
    now rewrite <- (Permutation_length (sort_values_perm df)).
Qed.

(** X11. With at most three features nothing is left out: the selection is
    the whole sorted frame, and the key-factor sentences are, up to their
    order, those of all the features. *)
Theorem few_features_are_all_selected
  (names : list string) (imps : list spec_float) (df : list row) (f : form) :
  DataFrame names imps = inr df ->
  List.length names <= 3 ->
  top_features df = sort_values df
  /\ Permutation df (top_features df)
  /\ Permutation (key_factor_lines f df) (key_factor_lines f (top_features df)).
Proof.
  intros Hdf Hlen. apply DataFrame_rows in Hdf as [-> Heq].
  assert (Htop : top_features (rows_from 0 names imps)
                 = sort_values (rows_from 0 names imps)).
  { unfold top_features, head. apply firstn_all2.
    rewrite <- (Permutation_length (sort_values_perm _)).
    rewrite rows_from_length by assumption. exact Hlen. }
  rewrite Htop. split; [reflexivity|]. split; [apply sort_values_perm|].
  unfold key_factor_lines. apply Permutation_flat_map.
  apply sort_values_perm.
Qed.

End Selection.

Lemma selected_rows_pair_name_and_weight_witness :
  NoDup (map index
           (@top_features stable_sort
              (rows_from 0 four_features four_importances))).
Proof.
  apply (proj2 (@selected_rows_pair_name_and_weight stable_sort
                  four_features four_importances
                  (rows_from 0 four_features four_importances) eq_refl)).
Defined.

Lemma few_features_are_all_selected_witness :
  @top_features stable_sort
    (rows_from 0 ["age"; "bmi"] [F.c0_5; F.c0_5])
  = @sort_values stable_sort
      (rows_from 0 ["age"; "bmi"] [F.c0_5; F.c0_5]).
Proof.
  assert (H : List.length ["age"; "bmi"] <= 3) by (simpl; lia).
  apply (proj1 (@few_features_are_all_selected stable_sort
                  ["age"; "bmi"] [F.c0_5; F.c0_5]
                  (rows_from 0 ["age"; "bmi"] [F.c0_5; F.c0_5])
                  scenario_form eq_refl H)).
Defined.

(** ** When the ranking does not depend on the sort *)

Lemma comparable_sym (a b : row) : comparable a b -> comparable b a.
Proof. unfold comparable. tauto. Qed.

Lemma different_weights_perm (l l' : list row) :
  Permutation l l' -> different_weights l -> different_weights l'.
Proof.
  unfold different_weights. induction 1 as [|x l l' Hp IH|x y l|l l' l'' H1 IH1 H2 IH2];
    intros H.
  - exact H.
  - inversion H as [|a m Ha Hm]; subst. constructor.
    + now apply (Permutation_Forall Hp).
    + now apply IH.
  - inversion H as [|a m Ha Hm]; subst.
    inversion Hm as [|b m' Hb Hm']; subst.
    inversion Ha as [|c m'' Hyx Hy]; subst.
    constructor; [|constructor; assumption].
    constructor; [now apply comparable_sym|assumption].
  - auto.
Qed.

(** In a sorted list of pairwise different importances each row is
    strictly above the rows after it. *)
Lemma sorted_strictly (l : list row) :
  different_weights l -> StronglySorted not_below l ->
  StronglySorted
    (fun a b => SFltb (importance b) (importance a) = true) l.
Proof.
  unfold different_weights. induction 1 as [|a l Ha Hl IH]; intros Hs.
  - constructor.
  - apply StronglySorted_inv in Hs as [Hs Hnb]. constructor; [now apply IH|].
    rewrite Forall_forall in *. intros x Hx.
    destruct (Ha x Hx) as [H|H]; [|exact H].
    specialize (Hnb x Hx). unfold not_below in Hnb. congruence.
Qed.

Lemma sorted_permutation_unique (l1 l2 : list row) :
  StronglySorted
    (fun a b => SFltb (importance b) (importance a) = true) l1 ->
  StronglySorted not_below l2 ->
  Permutation l1 l2 ->
  l1 = l2.
Proof.
  intros H1. revert l2. induction H1 as [|a l1 Hs1 IH Ha]; intros l2 H2 Hp.
  - apply Permutation_nil in Hp. now subst.
  - destruct l2 as [|b l2].
    { apply Permutation_sym, Permutation_nil in Hp. discriminate. }
    assert (Hab : a = b).
    { assert (Hina : In a (b :: l2))
        by (apply (Permutation_in a Hp); now left).
      assert (Hinb : In b (a :: l1))
        by (apply (Permutation_in b (Permutation_sym Hp)); now left).
      destruct Hina as [->|Hina]; [reflexivity|].
      destruct Hinb as [->|Hinb]; [reflexivity|].
      apply StronglySorted_inv in H2 as [_ Hb].
      rewrite Forall_forall in Ha, Hb.
      specialize (Ha b Hinb). specialize (Hb a Hina).
      unfold not_below in Hb. congruence. }
    subst b. f_equal. apply IH.
    + now apply StronglySorted_inv in H2 as [H2 _].
    + now apply Permutation_cons_inv with a.
Qed.

(** X12. When the importances are pairwise different numbers, the ranking
    is settled by the importances alone: any two sorts that meet the
    contract of [sort_values] give the same sorted frame, the same
    selection and the same key-factor sentences. *)
Theorem ranking_is_unique_without_ties
  (sort1 sort2 : SortValues) (df : list row) (f : form) :
  different_weights df ->
  @sort_values sort1 df = @sort_values sort2 df
  /\ @top_features sort1 df = @top_features sort2 df
  /\ key_factor_lines f (@top_features sort1 df)
     = key_factor_lines f (@top_features sort2 df).
Proof.
  intros Hd.
  assert (E : @sort_values sort1 df = @sort_values sort2 df).
  { apply sorted_permutation_unique.
    - apply sorted_strictly; [|apply sort_values_desc].
      apply (different_weights_perm df); [apply sort_values_perm|exact Hd].
    - apply sort_values_desc.
    - eapply Permutation_trans;
        [apply Permutation_sym, (@sort_values_perm sort1)
        |apply (@sort_values_perm sort2)]. }
  unfold top_features. rewrite E. auto.
Qed.

Lemma ranking_is_unique_without_ties_witness :
  different_weights
    (rows_from 0 ["age"; "bmi"; "gender"] [c0_25; F.c0_5; c0_35])
  /\ @top_features stable_sort
       (rows_from 0 ["age"; "bmi"; "gender"] [c0_25; F.c0_5; c0_35])
     = @top_features stable_sort
         (rows_from 0 ["age"; "bmi"; "gender"] [c0_25; F.c0_5; c0_35]).
Proof.
  assert (Hd : different_weights
                 (rows_from 0 ["age"; "bmi"; "gender"]
                            [c0_25; F.c0_5; c0_35])).
  { unfold different_weights, comparable. simpl.
    repeat constructor; simpl;
      first [left; reflexivity | right; reflexivity]. }
  split; [exact Hd|].
  apply (proj1 (proj2 (ranking_is_unique_without_ties
                         stable_sort stable_sort
                         (rows_from 0 ["age"; "bmi"; "gender"]
                                    [c0_25; F.c0_5; c0_35])
                         scenario_form Hd))).
Defined.

(** ** A score that the progress bar refuses (lines 80-86, 141-142) *)

(** X13. When [st.progress] refuses the score, the assessment stops there:
    the page has the title of the results and the metric with the band of
    the score, then the message of failure; no recommendation block, no
    key-factors section, and the model was called once. *)
Theorem refused_score_stops_after_metric
  (pandas : SortValues) (streamlit : Streamlit) (model : Model)
  (names : list string) (f : form) (p : spec_float) :
  risk_score model f = inr p ->
  progress_accepts p = false ->
  assessment model names f
  = ([ model_predict_proba (input_data f);
       st_subheader "Risk Assessment Results";
       st_metric "Diabetes Risk Score" [FPercent1 p] (risk_level p) "off";
       failure_message (StreamlitAPIException p) ], inr tt)
  /\ filter is_recommendation (output (assessment model names f)) = []
  /\ ~ In key_factors_title (output (assessment model names f))
  /\ sentences_of (output (assessment model names f)) = [].
Proof.
  intros Hr Hacc.
  rewrite (assessment_when_progress_refuses model names f p Hr Hacc).
  unfold output. simpl. repeat split.
  intros [H|[H|[H|[H|[]]]]]; discriminate.
Qed.

Lemma refused_score_stops_after_metric_witness :
  @assessment stable_sort progress_in_unit
     (stub_model c0_65 (S754_finite true 4503599627370496 (-53)) None)
     [] scenario_form
  = ([ model_predict_proba (input_data scenario_form);
       st_subheader "Risk Assessment Results";
       st_metric "Diabetes Risk Score"
         [FPercent1 (S754_finite true 4503599627370496 (-53))]
         "Low Risk" "off";
       failure_message
         (StreamlitAPIException (S754_finite true 4503599627370496 (-53))) ],
     inr tt).
Proof.
  apply (proj1 (refused_score_stops_after_metric stable_sort progress_in_unit
                  (stub_model c0_65 (S754_finite true 4503599627370496 (-53))
                              None)
                  [] scenario_form
                  (S754_finite true 4503599627370496 (-53))
                  eq_refl eq_refl)).
Defined.
